(** * dt-core: ground projection and anti-instagram nodes

    A shallow embedding of
      - packages/ground_projection/src/ground_projection_node.py
      - packages/anti_instagram/src/anti_instagram_node.py
    Python floats are IEEE binary64 values (Rocq's primitive floats), Python
    exceptions are an error result, the attributes of a node are a record that
    the callbacks pass along, and numpy images live in a store of arrays that
    attributes and locals refer to by index. *)

From Stdlib Require Import ZArith String Ascii List Floats.
From stdpp Require Import base option list gmap strings.
Import ListNotations.

Local Open Scope Z_scope.
Local Open Scope string_scope.

(* A decimal literal denotes the nearest binary64 value, as in Python. *)
Set Warnings "-inexact-float".

(** ** Python values and control *)

Module Py.

(** The exceptions that the two nodes can meet. [LibraryError] stands for an
    exception of a library outside the repository. *)
Inductive exn : Set :=
| ValueError
| IndexError
| TypeError
| AttributeError
| KeyError
| UnboundLocalError
| FileNotFoundError
| OverflowError
| YAMLError
| LibraryError (what : string).

(** The outcome of a Python expression: a value, or a raised exception. *)
Inductive result (A : Type) : Type :=
| Ok (a : A)
| Raise (e : exn).
Arguments Ok {A} a.
Arguments Raise {A} e.

Definition is_ok {A} (r : result A) : bool :=
  match r with Ok _ => true | Raise _ => false end.

#[export] Instance result_ret : MRet result := @Ok.
#[export] Instance result_bind : MBind result := fun A B f r =>
  match r with
  | Ok a => f a
  | Raise e => Raise e
  end.

(** A method body: it reads and writes the attributes [S] of [self] and
    either returns or raises; what it wrote before raising stays written. *)
Definition M (S A : Type) : Type := S -> result A * S.

#[export] Instance M_ret {S} : MRet (M S) := fun A a s => (Ok a, s).
#[export] Instance M_bind {S} : MBind (M S) := fun A B f m s =>
  match m s with
  | (Ok a, s') => f a s'
  | (Raise e, s') => (Raise e, s')
  end.

Definition raise {S A} (e : exn) : M S A := fun s => (Raise e, s).
Definition gets {S A} (f : S -> A) : M S A := fun s => (Ok (f s), s).
Definition modify {S} (f : S -> S) : M S unit := fun s => (Ok tt, f s).
Definition lift {S A} (r : result A) : M S A := fun s => (r, s).

(** [try: body / except E: handler], where [catches] tells the exceptions
    of class [E]; any other exception goes on to the caller. *)
Definition try_except {S A} (body : M S A) (catches : exn -> bool)
    (handler : exn -> M S A) : M S A := fun s =>
  match body s with
  | (Ok a, s') => (Ok a, s')
  | (Raise e, s') => if catches e then handler e s' else (Raise e, s')
  end.

(** A relation between the state before and after a body that holds
    whether the body returns or raises. *)
Definition preserves {S A} (R : S -> S -> Prop) (m : M S A) : Prop :=
  forall s, R s (snd (m s)).

(** [for x in xs: body x] *)
Fixpoint for_each {S A} (xs : list A) (body : A -> M S unit) : M S unit :=
  match xs with
  | [] => mret tt
  | x :: xs' => body x ≫= fun _ => for_each xs' body
  end.

(** [a, b = xs] *)
Definition unpack2 {A} (xs : list A) : result (A * A) :=
  match xs with
  | [a; b] => Ok (a, b)
  | _ => Raise ValueError
  end.

(** [xs[i]] for a constant index [i >= 0] *)
Definition getitem {A} (xs : list A) (i : nat) : result A :=
  match xs !! i with
  | Some a => Ok a
  | None => Raise IndexError
  end.

(** [int(f)]: truncation toward zero; NaN and the infinities raise. *)
Definition int (f : float) : result Z :=
  match Prim2SF f with
  | S754_zero _ => Ok 0
  | S754_infinity _ => Raise OverflowError
  | S754_nan => Raise ValueError
  | S754_finite s m e =>
      let mag := Z.shiftl (Z.pos m) e in
      Ok (if s then - mag else mag)
  end.

(** [np.reshape(xs, (r, c))] of a flat sequence, as nested rows. *)
Fixpoint rows_of (r c : nat) (xs : list float) : list (list float) :=
  match r with
  | O => []
  | S r' => take c xs :: rows_of r' c (drop c xs)
  end.

Definition reshape (xs : list float) (r c : nat) : result (list (list float)) :=
  if (length xs =? r * c)%nat then Ok (rows_of r c xs) else Raise ValueError.

(** [s.strip("/")] *)
Fixpoint lstrip_slash (s : list ascii) : list ascii :=
  match s with
  | c :: s' => if Ascii.eqb c "/"%char then lstrip_slash s' else s
  | [] => []
  end.

Definition strip_slash (s : string) : string :=
  string_of_list_ascii
    (rev (lstrip_slash (rev (lstrip_slash (list_ascii_of_string s))))).

(** The line feed of a string literal. *)
Definition nl : string := String (ascii_of_nat 10) EmptyString.

(** [f"{e}"]: the text of an exception; this model keeps the class only. *)
Definition str_exn (e : exn) : string :=
  match e with
  | ValueError => "ValueError"
  | IndexError => "IndexError"
  | TypeError => "TypeError"
  | AttributeError => "AttributeError"
  | KeyError => "KeyError"
  | UnboundLocalError => "UnboundLocalError"
  | FileNotFoundError => "FileNotFoundError"
  | OverflowError => "OverflowError"
  | YAMLError => "YAMLError"
  | LibraryError what => what
  end.

End Py.
Import Py.

(** ** ground_projection_node.py *)

Module GroundProjection.

(** *** Messages *)

(** [std_msgs/Header] *)
Record Header := { seq : Z; stamp : Z; frame_id : string }.

(** [geometry_msgs/Point] *)
Record PointMsg := { msg_x : float; msg_y : float; msg_z : float }.

(** [duckietown_msgs/Segment], the fields the node touches. The code treats
    [pixels_normalized] as a sequence that unpacks into two subscriptable
    rows of floats. [points] is the fixed array of two points. *)
Record Segment := {
  color : Z;
  pixels_normalized : list (list float);
  points : PointMsg * PointMsg
}.

(** [Segment()]: a message with every field at its default. *)
Definition Segment_new : Segment :=
  let zero := {| msg_x := 0; msg_y := 0; msg_z := 0 |} in
  {| color := 0;
     pixels_normalized := [[0%float; 0%float]; [0%float; 0%float]];
     points := (zero, zero) |}.

(** [duckietown_msgs/SegmentList] *)
Record SegmentList := { header : Header; segments : list Segment }.

(** [sensor_msgs/CameraInfo] *)
Record CameraInfo := {
  width : Z;
  height : Z;
  K : list float;
  D : list float;
  P : list float
}.

(** The colour tags [Segment.WHITE], [Segment.YELLOW] and [Segment.RED] are
    constants of the message declaration, which is outside the sources. *)
Class SegmentTags := { WHITE : Z; YELLOW : Z; RED : Z }.

(** *** dt_computer_vision *)

(** [dt_computer_vision.camera.types.Point]; [Pixel], [NormalizedImagePoint]
    and [GroundPoint] are points as well. *)
Record Point := { pt_x : float; pt_y : float }.
Abbreviation Pixel := Point (only parsing).
Abbreviation NormalizedImagePoint := Point (only parsing).
Abbreviation GroundPoint := Point (only parsing).

(** The camera model and the ground projector are classes of the library
    dt_computer_vision. Their constructors and methods may raise. *)
Class ComputerVision := {
  CameraModel : Type;
  GroundProjector : Type;
  CameraModel_new :
    Z -> Z -> list (list float) -> list float -> list (list float) ->
    list (list float) -> result CameraModel;
  GroundProjector_new : CameraModel -> result GroundProjector;
  rectify_pixel : CameraModel -> Pixel -> result Pixel;
  pixel2vector : CameraModel -> Pixel -> result NormalizedImagePoint;
  vector2ground : GroundProjector -> NormalizedImagePoint -> result GroundPoint
}.

(** *** numpy, OpenCV, cv_bridge and yaml *)

Definition BGR : Type := Z * Z * Z.

(** An array of shape (rows, columns, 3) of uint8. *)
Definition Image : Type := list (list BGR).

(** [np.ones((400, 400, 3), np.uint8) * 128] *)
Definition np_ones_128 : Image := repeat (repeat (128, 128, 128) 400) 400.

(** [np.arange(start, stop, step)] on integers, [step > 0]. *)
Definition arange (start stop step : Z) : list Z :=
  map (fun i => start + step * Z.of_nat i)
      (List.seq 0 (Z.to_nat ((stop - start + step - 1) / step))).

(** The drawing functions give the array after the call; the caller's array
    is overwritten with it. The font of [cv2_putText] is always
    [FONT_HERSHEY_PLAIN]. *)
Class OpenCV := {
  cv2_line : Image -> Z * Z -> Z * Z -> BGR -> Z -> Image;
  cv2_putText : Image -> string -> Z * Z -> float -> BGR -> Z -> Image;
  CompressedData : Type;
  cv2_to_compressed_imgmsg : Image -> CompressedData
}.

(** [sensor_msgs/CompressedImage] *)
Record CompressedImage `{OpenCV} := {
  ci_header : option Header;
  ci_data : CompressedData
}.

(** [yaml.load] of a file's text: a mapping from keys to float sequences,
    or [Raise YAMLError]. *)
Class Yaml := { yaml_load : string -> result (gmap string (list float)) }.

(** *** The node *)

Inductive level := info | warn | error.

Section Node.
Context `{ComputerVision} `{OpenCV} `{Yaml} `{SegmentTags}.

(** The attributes of the node, what it has published and logged, the
    shutdown request of the process, and the arrays allocated so far
    ([debug_img_bg] and local images are indices into [arrays]). *)
Record Node := {
  ground_projector : option GroundProjector;
  camera : option CameraModel;
  homography : list (list float);
  first_processing_done : bool;
  camera_info_received : bool;
  debug_img_bg : option nat;
  arrays : list Image;
  pub_lineseglist : list SegmentList;
  pub_debug_img : list CompressedImage;
  logs : list (level * string);
  shutdown : option string
}.

Definition set_ground_projector (v : option GroundProjector) (s : Node) : Node :=
  {| ground_projector := v; camera := camera s; homography := homography s;
     first_processing_done := first_processing_done s;
     camera_info_received := camera_info_received s;
     debug_img_bg := debug_img_bg s; arrays := arrays s;
     pub_lineseglist := pub_lineseglist s; pub_debug_img := pub_debug_img s;
     logs := logs s; shutdown := shutdown s |}.

Definition set_camera (v : option CameraModel) (s : Node) : Node :=
  {| ground_projector := ground_projector s; camera := v; homography := homography s;
     first_processing_done := first_processing_done s;
     camera_info_received := camera_info_received s;
     debug_img_bg := debug_img_bg s; arrays := arrays s;
     pub_lineseglist := pub_lineseglist s; pub_debug_img := pub_debug_img s;
     logs := logs s; shutdown := shutdown s |}.

Definition set_homography (v : list (list float)) (s : Node) : Node :=
  {| ground_projector := ground_projector s; camera := camera s; homography := v;
     first_processing_done := first_processing_done s;
     camera_info_received := camera_info_received s;
     debug_img_bg := debug_img_bg s; arrays := arrays s;
     pub_lineseglist := pub_lineseglist s; pub_debug_img := pub_debug_img s;
     logs := logs s; shutdown := shutdown s |}.

Definition set_first_processing_done (v : bool) (s : Node) : Node :=
  {| ground_projector := ground_projector s; camera := camera s;
     homography := homography s; first_processing_done := v;
     camera_info_received := camera_info_received s;
     debug_img_bg := debug_img_bg s; arrays := arrays s;
     pub_lineseglist := pub_lineseglist s; pub_debug_img := pub_debug_img s;
     logs := logs s; shutdown := shutdown s |}.

Definition set_camera_info_received (v : bool) (s : Node) : Node :=
  {| ground_projector := ground_projector s; camera := camera s;
     homography := homography s;
     first_processing_done := first_processing_done s;
     camera_info_received := v;
     debug_img_bg := debug_img_bg s; arrays := arrays s;
     pub_lineseglist := pub_lineseglist s; pub_debug_img := pub_debug_img s;
     logs := logs s; shutdown := shutdown s |}.

Definition set_debug_img_bg (v : option nat) (s : Node) : Node :=
  {| ground_projector := ground_projector s; camera := camera s;
     homography := homography s;
     first_processing_done := first_processing_done s;
     camera_info_received := camera_info_received s;
     debug_img_bg := v; arrays := arrays s;
     pub_lineseglist := pub_lineseglist s; pub_debug_img := pub_debug_img s;
     logs := logs s; shutdown := shutdown s |}.

Definition set_arrays (v : list Image) (s : Node) : Node :=
  {| ground_projector := ground_projector s; camera := camera s;
     homography := homography s;
     first_processing_done := first_processing_done s;
     camera_info_received := camera_info_received s;
     debug_img_bg := debug_img_bg s; arrays := v;
     pub_lineseglist := pub_lineseglist s; pub_debug_img := pub_debug_img s;
     logs := logs s; shutdown := shutdown s |}.

(** [self.pub_lineseglist.publish(m)] *)
Definition publish_lineseglist (m : SegmentList) (s : Node) : Node :=
  {| ground_projector := ground_projector s; camera := camera s;
     homography := homography s;
     first_processing_done := first_processing_done s;
     camera_info_received := camera_info_received s;
     debug_img_bg := debug_img_bg s; arrays := arrays s;
     pub_lineseglist := pub_lineseglist s ++ [m];
     pub_debug_img := pub_debug_img s;
     logs := logs s; shutdown := shutdown s |}.

(** [self.pub_debug_img.publish(m)] *)
Definition publish_debug_img (m : CompressedImage) (s : Node) : Node :=
  {| ground_projector := ground_projector s; camera := camera s;
     homography := homography s;
     first_processing_done := first_processing_done s;
     camera_info_received := camera_info_received s;
     debug_img_bg := debug_img_bg s; arrays := arrays s;
     pub_lineseglist := pub_lineseglist s;
     pub_debug_img := pub_debug_img s ++ [m];
     logs := logs s; shutdown := shutdown s |}.

(** The node with one more line in its log. *)
Definition add_log (lvl : level) (msg : string) (s : Node) : Node :=
  {| ground_projector := ground_projector s; camera := camera s;
     homography := homography s;
     first_processing_done := first_processing_done s;
     camera_info_received := camera_info_received s;
     debug_img_bg := debug_img_bg s; arrays := arrays s;
     pub_lineseglist := pub_lineseglist s; pub_debug_img := pub_debug_img s;
     logs := logs s ++ [(lvl, msg)]; shutdown := shutdown s |}.

(** [self.log(msg, lvl)]; [self.logerr(msg)] is [log error msg]. *)
Definition log (lvl : level) (msg : string) : M Node unit :=
  modify (add_log lvl msg).

(** The node with the shutdown of the process requested; the first reason
    stays. *)
Definition request_shutdown (reason : string) (s : Node) : Node :=
  {| ground_projector := ground_projector s; camera := camera s;
     homography := homography s;
     first_processing_done := first_processing_done s;
     camera_info_received := camera_info_received s;
     debug_img_bg := debug_img_bg s; arrays := arrays s;
     pub_lineseglist := pub_lineseglist s; pub_debug_img := pub_debug_img s;
     logs := logs s;
     shutdown := match shutdown s with Some r => Some r | None => Some reason end |}.

(** [rospy.signal_shutdown(reason)]: the request is recorded and the caller
    goes on. *)
Definition signal_shutdown (reason : string) : M Node unit :=
  modify (request_shutdown reason).

(** *** Arrays in the store *)

(** A new array object; the result is its reference. *)
Definition alloc (img : Image) : M Node nat := fun s =>
  (Ok (length (arrays s)), set_arrays (arrays s ++ [img]) s).

(** The contents of the array behind a reference. *)
Definition deref (r : nat) : M Node Image := fun s =>
  match arrays s !! r with
  | Some img => (Ok img, s)
  | None => (Raise (LibraryError "no such array"), s)
  end.

(** [a.copy()]: a new array object with the contents of [a]. *)
Definition copy (r : nat) : M Node nat :=
  img ← deref r; alloc img.

(** A drawing call on the array behind [r]: the array is overwritten. *)
Definition draw (r : nat) (f : Image -> Image) : M Node unit :=
  modify (fun s => set_arrays (alter f r (arrays s)) s).

(** A drawing call on [self.debug_img_bg]. *)
Definition draw_bg (f : Image -> Image) : M Node unit :=
  bg ← gets debug_img_bg;
  match bg with
  | Some r => draw r f
  | None => raise TypeError
  end.

(** *** cb_camera_info *)

Definition cb_camera_info (msg : CameraInfo) : M Node unit :=
  received ← gets camera_info_received;
  (if negb received then
     _K ← lift (reshape (K msg) 3 3);
     _P ← lift (reshape (P msg) 3 4);
     H' ← gets homography;
     cam ← lift (CameraModel_new (width msg) (height msg) _K (D msg) _P H');
     modify (set_camera (Some cam));;
     cam' ← gets camera;
     match cam' with
     | Some c =>
         gp ← lift (GroundProjector_new c);
         modify (set_ground_projector (Some gp))
     | None => raise TypeError
     end
   else mret tt);;
  modify (set_camera_info_received true).

(** *** lineseglist_cb *)

Definition _fill_point_msg (pt : Point) : PointMsg :=
  {| msg_x := pt_x pt; msg_y := pt_y pt; msg_z := 0 |}.

(** The two pixels of a received segment, as the loop body builds them. *)
Definition endpoints (received_segment : Segment) : result (Pixel * Pixel) :=
  '(l0, l1) ← unpack2 (pixels_normalized received_segment);
  a ← getitem l0 0;
  b ← getitem l0 1;
  let p0 := {| pt_x := a; pt_y := b |} in
  c ← getitem l1 2;
  d ← getitem l1 3;
  let p1 := {| pt_x := c; pt_y := d |} in
  mret (p0, p1).

(** [self.camera.rectifier.rectify_pixel], [self.camera.pixel2vector] and
    [self.ground_projector.vector2ground] on attributes that may be [None]. *)
Definition on_attr {A B C} (attr : option A) (f : A -> B -> result C) (b : B)
  : result C :=
  match attr with
  | Some a => f a b
  | None => Raise AttributeError
  end.

(** The body of the loop over the received segments, up to the append. *)
Definition project_segment (cam : option CameraModel)
    (gp : option GroundProjector) (received_segment : Segment)
  : result Segment :=
  let new_segment := Segment_new in
  '(p0, p1) ← endpoints received_segment;
  p0_rect ← on_attr cam rectify_pixel p0;
  p1_rect ← on_attr cam rectify_pixel p1;
  p0_norm ← on_attr cam pixel2vector p0_rect;
  p1_norm ← on_attr cam pixel2vector p1_rect;
  grounded_p0 ← on_attr gp vector2ground p0_norm;
  grounded_p1 ← on_attr gp vector2ground p1_norm;
  mret {| color := color received_segment;
          pixels_normalized := pixels_normalized new_segment;
          points := (_fill_point_msg grounded_p0, _fill_point_msg grounded_p1) |}.

(** The loop: [out] is [seglist_out.segments] so far. *)
Fixpoint project_segments (received : list Segment) (out : list Segment)
  : M Node (list Segment) :=
  match received with
  | [] => mret out
  | received_segment :: rest =>
      cam ← gets camera;
      gp ← gets ground_projector;
      new_segment ← lift (project_segment cam gp received_segment);
      project_segments rest (out ++ [new_segment])
  end.

(** *** debug_image *)

(** The pixel of a ground point: (column, row). *)
Definition ground_to_pixel (p : PointMsg) : result (Z * Z) :=
  col ← int (msg_y p * -400)%float;
  row ← int (msg_x p * -400)%float;
  mret (col + 200, row + 300).

(** [np.any(np.abs([p0.x, p0.y, p1.x, p1.y]) > 0.50)] *)
Definition out_of_scope (segment : Segment) : bool :=
  let '(p0, p1) := points segment in
  existsb (fun c => PrimFloat.ltb 0.5 (PrimFloat.abs c))
          [msg_x p0; msg_y p0; msg_x p1; msg_y p1].

(** The dict literal [color_map]. *)
Definition color_map : gmap Z BGR :=
  <[YELLOW := (0, 255, 255)]>
    (<[RED := (0, 0, 255)]> (<[WHITE := (255, 255, 255)]> ∅)).

(** [color_map.get(c, (0, 0, 0))] *)
Definition display_color (c : Z) : BGR := default (0, 0, 0) (color_map !! c).

(** The first call's branch: the grid, the labels and the robot marker. *)
Definition generate_background : M Node unit :=
  r ← alloc np_ones_128;
  modify (set_debug_img_bg (Some r));;
  for_each (arange 40 361 40) (fun vline =>
    draw_bg (fun im => cv2_line im (vline, 20) (vline, 300) (255, 255, 0) 1));;
  draw_bg (fun im => cv2_putText im "-20cm" (120 - 25, 300 + 15) 0.8 (255, 255, 0) 1);;
  draw_bg (fun im => cv2_putText im "  0cm" (200 - 25, 300 + 15) 0.8 (255, 255, 0) 1);;
  draw_bg (fun im => cv2_putText im "+20cm" (280 - 25, 300 + 15) 0.8 (255, 255, 0) 1);;
  for_each (arange 20 301 40) (fun hline =>
    draw_bg (fun im => cv2_line im (40, hline) (360, hline) (255, 255, 0) 1));;
  draw_bg (fun im => cv2_putText im "20cm" (2, 220 + 3) 0.8 (255, 255, 0) 1);;
  draw_bg (fun im => cv2_putText im " 0cm" (2, 300 + 3) 0.8 (255, 255, 0) 1);;
  draw_bg (fun im => cv2_line im (200 + 0, 300 - 20) (200 + 0, 300 + 0) (255, 0, 0) 1);;
  draw_bg (fun im => cv2_line im (200 + 20, 300 - 20) (200 + 0, 300 + 0) (255, 0, 0) 1);;
  draw_bg (fun im => cv2_line im (200 - 20, 300 - 20) (200 + 0, 300 + 0) (255, 0, 0) 1).

(** The body of the loop over the segments to plot, on the array [image]. *)
Definition plot_segment (image : nat) (segment : Segment) : M Node unit :=
  if negb (out_of_scope segment) then
    pt1 ← lift (ground_to_pixel (fst (points segment)));
    pt2 ← lift (ground_to_pixel (snd (points segment)));
    draw image (fun im => cv2_line im pt1 pt2 (display_color (color segment)) 1)
  else mret tt.

(** The result is the reference of the returned image. *)
Definition debug_image (seg_list : SegmentList) : M Node nat :=
  bg ← gets debug_img_bg;
  (match bg with
   | None => generate_background
   | Some _ => mret tt
   end);;
  bg ← gets debug_img_bg;
  match bg : option nat with
  | None => raise AttributeError
  | Some r =>
      image ← copy r;
      for_each (segments seg_list) (plot_segment image);;
      mret image
  end.

(** [num_connections] is what [self.pub_debug_img.get_num_connections()]
    returns during the call. *)
Definition lineseglist_cb (num_connections : nat) (seglist_msg : SegmentList)
  : M Node unit :=
  ready ← gets camera_info_received;
  if ready : bool then
    out ← project_segments (segments seglist_msg) [];
    let seglist_out := {| header := header seglist_msg; segments := out |} in
    modify (publish_lineseglist seglist_out);;
    processed ← gets first_processing_done;
    (if negb processed then
       log info "First projected segments published.";;
       modify (set_first_processing_done true)
     else mret tt);;
    if (0 <? num_connections)%nat then
      image ← debug_image seglist_out;
      pixels ← deref image;
      let debug_image_msg :=
        {| ci_header := Some (header seglist_out);
           ci_data := cv2_to_compressed_imgmsg pixels |} in
      modify (publish_debug_img debug_image_msg)
    else mret tt
  else log warn "Waiting for a CameraInfo message".

(** *** load_extrinsics and __init__ *)

Definition cali_file_folder : string :=
  "/data/config/calibrations/camera_extrinsic/".

(** The regular files of the disk, by path, with their text. *)
Definition isfile (fs : gmap string string) (path : string) : bool :=
  bool_decide (is_Some (fs !! path)).

(** [open(path, "r")], read to the end. *)
Definition open_read (fs : gmap string string) (path : string) : result string :=
  match fs !! path with
  | Some text => Ok text
  | None => Raise FileNotFoundError
  end.

Definition is_YAMLError (e : exn) : bool :=
  match e with YAMLError => true | _ => false end.

(** [namespace] is what [rospy.get_namespace()] returns. The local
    [calib_data] is [None] until the [try] block has bound it. *)
Definition load_extrinsics (fs : gmap string string) (namespace : string)
  : M Node (list float) :=
  let cali_file := cali_file_folder ++ strip_slash namespace ++ ".yaml" in
  cali_file ←
    (if negb (isfile fs cali_file) then
       log warn ("Can't find calibration file: " ++ cali_file ++ "." ++ nl
                 ++ " Using default calibration instead.");;
       mret (cali_file_folder ++ "default.yaml")
     else mret cali_file);
  (if negb (isfile fs cali_file) then
     let msg := "Found no calibration file ... aborting" in
     log error msg;;
     signal_shutdown msg
   else mret tt);;
  calib_data ←
    try_except
      (text ← lift (open_read fs cali_file);
       data ← lift (yaml_load text);
       mret (Some data))
      is_YAMLError
      (fun _ =>
         let msg := "Error in parsing calibration file " ++ cali_file
                    ++ " ... aborting" in
         log error msg;;
         signal_shutdown msg;;
         mret None);
  match calib_data : option (gmap string (list float)) with
  | None => raise UnboundLocalError
  | Some data =>
      match data !! "homography" with
      | Some h => mret h
      | None => raise KeyError
      end
  end.

(** The process before the node object exists: nothing logged or published,
    no shutdown request, no array. *)
Definition blank : Node :=
  {| ground_projector := None; camera := None; homography := [];
     first_processing_done := false; camera_info_received := false;
     debug_img_bg := None; arrays := [];
     pub_lineseglist := []; pub_debug_img := [];
     logs := []; shutdown := None |}.

Definition __init__ (fs : gmap string string) (namespace : string)
  : M Node unit :=
  modify (set_ground_projector None);;
  modify (set_camera None);;
  h ← load_extrinsics fs namespace;
  h33 ← lift (reshape h 3 3);
  modify (set_homography h33);;
  modify (set_first_processing_done false);;
  modify (set_camera_info_received false);;
  modify (set_debug_img_bg None).

(** *** rospy.spin *)

(** What the subscribers of the node receive. *)
Inductive event :=
| camera_info (msg : CameraInfo)
| lineseglist_in (num_connections : nat) (msg : SegmentList).

Definition is_lineseglist_in (ev : event) : bool :=
  match ev with
  | lineseglist_in _ _ => true
  | camera_info _ => false
  end.

Definition dispatch (ev : event) : M Node unit :=
  match ev with
  | camera_info msg => cb_camera_info msg
  | lineseglist_in n msg => lineseglist_cb n msg
  end.

(** The callbacks run one after the other. rospy catches an exception that
    a callback raises, and the node goes on with what the callback had
    written. *)
Definition spin (evs : list event) (s : Node) : Node :=
  fold_left (fun s ev => snd (dispatch ev s)) evs s.

(** *** Notions the statements use *)

(** What one camera info builds with the homography [h]: the camera model
    and the ground projector, when both reshapes and both constructors
    return. *)
Definition build (h : list (list float)) (msg : CameraInfo)
  : result (CameraModel * GroundProjector) :=
  _K ← reshape (K msg) 3 3;
  _P ← reshape (P msg) 3 4;
  cam ← CameraModel_new (width msg) (height msg) _K (D msg) _P h;
  gp ← GroundProjector_new cam;
  mret (cam, gp).

(** What the first camera info of a sequence that builds at all builds. *)
Fixpoint first_built (h : list (list float)) (msgs : list CameraInfo)
  : option (CameraModel * GroundProjector) :=
  match msgs with
  | [] => None
  | msg :: rest =>
      match build h msg with
      | Ok built => Some built
      | Raise _ => first_built h rest
      end
  end.

(** A published point with finite coordinates: neither NaN nor infinite. *)
Definition finite_point (p : PointMsg) : bool :=
  is_finite (msg_x p) && is_finite (msg_y p).

(** A published segment both of whose points are finite. *)
Definition finite_segment (o : Segment) : bool :=
  finite_point (fst (points o)) && finite_point (snd (points o)).

(** The contents of the cached background, when there is one. *)
Definition cached_background (s : Node) : option Image :=
  r ← debug_img_bg s; arrays s !! r.

(** The background as the first call of [debug_image] draws it. *)
Definition background : Image :=
  let im := np_ones_128 in
  let im := fold_left (fun im vline =>
              cv2_line im (vline, 20) (vline, 300) (255, 255, 0) 1)
              (arange 40 361 40) im in
  let im := cv2_putText im "-20cm" (120 - 25, 300 + 15) 0.8 (255, 255, 0) 1 in
  let im := cv2_putText im "  0cm" (200 - 25, 300 + 15) 0.8 (255, 255, 0) 1 in
  let im := cv2_putText im "+20cm" (280 - 25, 300 + 15) 0.8 (255, 255, 0) 1 in
  let im := fold_left (fun im hline =>
              cv2_line im (40, hline) (360, hline) (255, 255, 0) 1)
              (arange 20 301 40) im in
  let im := cv2_putText im "20cm" (2, 220 + 3) 0.8 (255, 255, 0) 1 in
  let im := cv2_putText im " 0cm" (2, 300 + 3) 0.8 (255, 255, 0) 1 in
  let im := cv2_line im (200 + 0, 300 - 20) (200 + 0, 300 + 0) (255, 0, 0) 1 in
  let im := cv2_line im (200 + 20, 300 - 20) (200 + 0, 300 + 0) (255, 0, 0) 1 in
  cv2_line im (200 - 20, 300 - 20) (200 + 0, 300 + 0) (255, 0, 0) 1.

(** The node with the array [im] added to the store as the cached
    background. *)
Definition with_background (s : Node) (im : Image) : Node :=
  set_debug_img_bg (Some (length (arrays s))) (set_arrays (arrays s ++ [im]) s).

(** The coordinates that [debug_image] tests against the visible range. *)
Definition coordinates (segment : Segment) : list float :=
  [msg_x (fst (points segment)); msg_y (fst (points segment));
   msg_x (snd (points segment)); msg_y (snd (points segment))].

(** What a body leaves as it was, seen through [view]. *)
Definition keeps {V} (view : Node -> V) (s s' : Node) : Prop := view s' = view s.

(** The views of the node that the statements follow. *)
Definition outputs (s : Node) := (pub_lineseglist s, pub_debug_img s).

Definition calibration (s : Node) :=
  (camera_info_received s, camera s, ground_projector s).

Definition store (s : Node) := (debug_img_bg s, arrays s).

(** Every array but [image] is as it was, and so is the reference of the
    background. *)
Definition apart (image : nat) (s s' : Node) : Prop :=
  debug_img_bg s' = debug_img_bg s /\
  length (arrays s') = length (arrays s) /\
  forall j, j <> image -> arrays s' !! j = arrays s !! j.

(** The node after the segment list [m] has been published and the first
    processing noted, which is where the debug image starts. *)
Definition published (s : Node) (m : SegmentList) : Node :=
  let s0 := publish_lineseglist m s in
  if first_processing_done s then s0
  else set_first_processing_done true
         (add_log info "First projected segments published." s0).

(** The calibration files that [load_extrinsics] looks for. *)
Definition robot_file (namespace : string) : string :=
  cali_file_folder ++ strip_slash namespace ++ ".yaml".

Definition default_file : string := cali_file_folder ++ "default.yaml".

(** The texts that [load_extrinsics] logs. *)
Definition missing_text (namespace : string) : string :=
  "Can't find calibration file: " ++ robot_file namespace ++ "." ++ nl
  ++ " Using default calibration instead.".

Definition unparsable_text (file : string) : string :=
  "Error in parsing calibration file " ++ file ++ " ... aborting".


(** *** Further notions *)

(** A ready node has its camera model and its ground projector, the
    projector was built from that camera model, and the camera model from
    the homography of the node. *)
Definition calibrated (s : Node) : Prop :=
  camera_info_received s = true ->
  exists cam gp,
    camera s = Some cam /\ ground_projector s = Some gp /\
    GroundProjector_new cam = Ok gp /\
    exists w h k d p, CameraModel_new w h k d p (homography s) = Ok cam.

(** The log lines that tell the first published segment list. *)
Definition is_first_line (line : level * string) : bool :=
  match fst line with
  | info => String.eqb (snd line) "First projected segments published."
  | _ => false
  end.

Definition first_lines (s : Node) : list (level * string) :=
  List.filter is_first_line (logs s).

(** What a callback leaves to the next ones, the debug output apart. *)
Definition primary (s : Node) :=
  (pub_lineseglist s, logs s, first_processing_done s, calibration s,
   homography s, shutdown s).

(** The node that [lineseglist_cb] leaves, before any debug image. *)
Definition handled (s : Node) (msg : SegmentList) : Node :=
  if camera_info_received s then
    match mapM (project_segment (camera s) (ground_projector s)) (segments msg) with
    | Ok out => published s {| header := header msg; segments := out |}
    | Raise _ => s
    end
  else add_log warn "Waiting for a CameraInfo message" s.

(** The reference of the background, when there is one, is to an array. *)
Definition store_ok (s : Node) : Prop :=
  forall r, debug_img_bg s = Some r -> is_Some (arrays s !! r).

(** The pixels under the plotted segments: the cached background, or the
    one that the first call draws. *)
Definition backdrop (s : Node) : Image :=
  match debug_img_bg s with
  | Some _ => default background (cached_background s)
  | None => background
  end.

(** What plotting a segment does to the pixels of an image, as a function,
    and the segments of a list plotted one after the other. *)
Definition stroke (segment : Segment) : result (Image -> Image) :=
  if negb (out_of_scope segment) then
    pt1 ← ground_to_pixel (fst (points segment));
    pt2 ← ground_to_pixel (snd (points segment));
    mret (fun im => cv2_line im pt1 pt2 (display_color (color segment)) 1)
  else mret (fun im => im).

Fixpoint render (im : Image) (segs : list Segment) : result Image :=
  match segs with
  | [] => Ok im
  | segment :: rest => stroke segment ≫= fun f => render (f im) rest
  end.

End Node.
End GroundProjection.

(** ** anti_instagram_node.py *)

Module AntiInstagram.

(** The image message, the decoded image, the estimator object of
    dt_computer_vision and the decoder of cv_bridge are outside the sources.
    [update] changes the estimator in place and may raise. *)
Class Library := {
  CompressedImage : Type;
  Image : Type;
  Estimator : Type;
  Threshold : Type;
  update : Image -> M Estimator unit;
  lower_threshold : Estimator -> Threshold;
  higher_threshold : Estimator -> Threshold;
  compressed_imgmsg_to_cv2 : CompressedImage -> result Image
}.

Section Node.
Context `{Library}.

(** [duckietown_msgs/AntiInstagramThresholds] *)
Record AntiInstagramThresholds := { low : Threshold; high : Threshold }.

(** The attributes of the node, with what it has published and logged. The
    callbacks run one at a time here; [self.mutex] guards only the reads and
    writes of [image_msg]. *)
Record Node := {
  ai : Estimator;
  image_msg : option CompressedImage;
  pub : list AntiInstagramThresholds;
  logs : list string
}.

Definition add_log (msg : string) (s : Node) : Node :=
  {| ai := ai s; image_msg := image_msg s; pub := pub s;
     logs := logs s ++ [msg] |}.

Definition log (msg : string) : M Node unit := modify (add_log msg).

Definition publish (m : AntiInstagramThresholds) : M Node unit :=
  modify (fun s =>
    {| ai := ai s; image_msg := image_msg s; pub := pub s ++ [m];
       logs := logs s |}).

(** A method of [self.ai], run on the estimator inside the node. *)
Definition on_ai {A} (m : M Estimator A) : M Node A := fun s =>
  let '(r, a) := m (ai s) in
  (r, {| ai := a; image_msg := image_msg s; pub := pub s; logs := logs s |}).

Definition store_image_msg (m : CompressedImage) : M Node unit :=
  modify (fun s =>
    {| ai := ai s; image_msg := Some m; pub := pub s; logs := logs s |}).

Definition is_ValueError (e : exn) : bool :=
  match e with ValueError => true | _ => false end.

(** The local [image] is [None] until the [try] block has bound it. *)
Definition decode_image_msg : M Node Image :=
  image ←
    try_except
      (msg ← gets image_msg;
       match msg with
       | Some m => img ← lift (compressed_imgmsg_to_cv2 m); mret (Some img)
       | None => raise AttributeError
       end)
      is_ValueError
      (fun e =>
         log ("Anti_instagram cannot decode image: " ++ str_exn e);;
         mret None);
  match image : option Image with
  | Some img => mret img
  | None => raise UnboundLocalError
  end.

(** The timer callback; the timer event is not read. *)
Definition calculate_new_parameters : M Node unit :=
  stored ← gets image_msg;
  match stored : option CompressedImage with
  | None => log "Waiting for first image!"
  | Some _ =>
      image ← decode_image_msg;
      on_ai (update image);;
      a ← gets ai;
      publish {| low := lower_threshold a; high := higher_threshold a |}
  end.


(** *** rospy.spin *)

(** What the node receives: an image on its subscriber, or a timer tick. *)
Inductive event :=
| image_in (m : CompressedImage)
| timer.

Definition is_timer (ev : event) : bool :=
  match ev with
  | timer => true
  | image_in _ => false
  end.

Definition dispatch (ev : event) : M Node unit :=
  match ev with
  | image_in m => store_image_msg m
  | timer => calculate_new_parameters
  end.

(** The callbacks run one after the other; rospy catches what they raise. *)
Definition spin (evs : list event) (s : Node) : Node :=
  fold_left (fun s ev => snd (dispatch ev s)) evs s.

End Node.
End AntiInstagram.

(** ** A small instance of the libraries

    Stand-ins for dt_computer_vision, OpenCV, cv_bridge and yaml, on which
    the statements below are run. *)

Module Sample.
Import GroundProjection.

Record Camera := {
  cm_width : Z;
  cm_height : Z;
  cm_K : list (list float);
  cm_D : list float;
  cm_P : list (list float);
  cm_H : list (list float)
}.

Record Projector := { gp_camera : Camera }.

(** The homography applied to (x, y, 1); a zero denominator is refused. *)
Definition homography_apply (gp : Projector) (v : Point) : result Point :=
  match cm_H (gp_camera gp) with
  | [[a; b; c]; [d; e; f]; [g; h; i]] =>
      let X := (a * pt_x v + b * pt_y v + c)%float in
      let Y := (d * pt_x v + e * pt_y v + f)%float in
      let W := (g * pt_x v + h * pt_y v + i)%float in
      if PrimFloat.eqb W 0 then Raise (LibraryError "unprojectable point")
      else Ok {| pt_x := X / W; pt_y := Y / W |}
  | _ => Raise TypeError
  end.

#[export] Instance vision : ComputerVision := {|
  CameraModel := Camera;
  GroundProjector := Projector;
  CameraModel_new w h k d p hm :=
    Ok {| cm_width := w; cm_height := h; cm_K := k; cm_D := d; cm_P := p;
          cm_H := hm |};
  GroundProjector_new cam := Ok {| gp_camera := cam |};
  rectify_pixel _ p := Ok p;
  pixel2vector _ p := Ok p;
  vector2ground := homography_apply
|}.

(** A line that colours its two end pixels, a text that colours its origin. *)
Definition set_pixel (im : Image) (at_ : Z * Z) (c : BGR) : Image :=
  let '(col, row) := at_ in
  if ((0 <=? col)%Z && (0 <=? row)%Z)%bool
  then alter (fun r => <[Z.to_nat col := c]> r) (Z.to_nat row) im
  else im.

#[export] Instance opencv : OpenCV := {|
  cv2_line im pt1 pt2 c _ := set_pixel (set_pixel im pt1 c) pt2 c;
  cv2_putText im _ org _ c _ := set_pixel im org c;
  CompressedData := Image;
  cv2_to_compressed_imgmsg im := im
|}.

Definition H_flat : list float :=
  [0; 0; 1; -1; 0; 0; 0; 1; 0]%float.

(** A text that starts with the key parses to the one homography. *)
#[export] Instance yaml : Yaml := {|
  yaml_load text :=
    if String.prefix "homography:" text
    then Ok (<["homography" := H_flat]> ∅)
    else Raise YAMLError
|}.

#[export] Instance tags : SegmentTags := {| WHITE := 0; YELLOW := 1; RED := 2 |}.

Definition disk_default : gmap string string :=
  <[default_file := "homography: [0, 0, 1, -1, 0, 0, 0, 1, 0]"]> ∅.

Definition disk_broken : gmap string string :=
  <[robot_file "/duckiebot/" := "{{"]> disk_default.

Definition info_msg : CameraInfo :=
  {| width := 640; height := 480;
     K := [300; 0; 320; 0; 300; 240; 0; 0; 1]%float;
     D := [0; 0; 0; 0; 0]%float;
     P := [300; 0; 320; 0; 0; 300; 240; 0; 0; 0; 1; 0]%float |}.

Definition hdr : Header := {| seq := 7; stamp := 1000; frame_id := "camera" |}.

(** A received segment whose rows carry the pixels where the loop reads
    them: the first from row 0 at 0 and 1, the second from row 1 at 2 and 3. *)
Definition seg (c : Z) (x0 y0 x1 y1 : float) : Segment :=
  {| color := c;
     pixels_normalized := [[x0; y0; 0%float; 0%float]; [0%float; 0%float; x1; y1]];
     points := points Segment_new |}.

(** Five segments; the third has an end on the horizon (y = 0). *)
Definition batch5 : SegmentList :=
  {| header := hdr;
     segments := [seg 0 0.5 4 0.25 8; seg 1 1 4 2 8; seg 2 0.5 0 0.5 4;
                  seg 0 (-1) 4 (-1) 8; seg 1 0 8 0 16]%float |}.

(** The node after [__init__] on [disk_default]. *)
Definition started : Node := snd (__init__ disk_default "/duckiebot/" blank).

(** The node after the first camera info. *)
Definition ready : Node := snd (cb_camera_info info_msg started).

(** Two segments that project: the first within half a metre of the origin,
    the second beyond it. *)
Definition batch2 : SegmentList :=
  {| header := hdr;
     segments := [seg 0 0.5 4 0.25 8; seg 7 8 2 8 4]%float |}.

(** One received segment whose ground points are beyond half a metre. *)
Definition batch_far : SegmentList :=
  {| header := hdr; segments := [seg 2 8 2 8 4]%float |}.

(** A ground segment far from the origin. *)
Definition ground_far : SegmentList :=
  {| header := hdr;
     segments :=
       [{| color := 2;
           pixels_normalized := pixels_normalized Segment_new;
           points := ({| msg_x := 8; msg_y := 2; msg_z := 0 |},
                      {| msg_x := 4; msg_y := 2; msg_z := 0 |}) |}] |}.

(** The node after a first debug image: the background is cached. *)
Definition drawn : Node := snd (debug_image ground_far ready).

(** Four floats in two rows of two. *)
Definition four_floats : Segment :=
  {| color := 0;
     pixels_normalized := [[0.1; 0.2]; [0.3; 0.4]]%float;
     points := points Segment_new |}.

(** A camera info with a K of two numbers. *)
Definition short_info : CameraInfo :=
  {| width := 640; height := 480; K := [300; 0]%float;
     D := D info_msg; P := P info_msg |}.

(** A disk with the robot's own file only. *)
Definition disk_robot : gmap string string :=
  <[robot_file "/duckiebot/" := "homography: [0, 0, 1, -1, 0, 0, 0, 1, 0]"]> ∅.

(** A ground segment in scope with a NaN coordinate. *)
Definition ground_nan : SegmentList :=
  {| header := hdr;
     segments :=
       [{| color := 0;
           pixels_normalized := pixels_normalized Segment_new;
           points := ({| msg_x := nan; msg_y := 0; msg_z := 0 |},
                      {| msg_x := 0.25; msg_y := 0.125; msg_z := 0 |}) |}] |}.

End Sample.

Module SampleDividing.
Import GroundProjection.

(** The homography applied to (x, y, 1) with no test on the denominator:
    the division is the IEEE one, so a zero denominator gives an infinite
    coordinate (or NaN) instead of an exception. *)
Definition homography_divide (gp : Sample.Projector) (v : Point)
  : result Point :=
  match Sample.cm_H (Sample.gp_camera gp) with
  | [[a; b; c]; [d; e; f]; [g; h; i]] =>
      let X := (a * pt_x v + b * pt_y v + c)%float in
      let Y := (d * pt_x v + e * pt_y v + f)%float in
      let W := (g * pt_x v + h * pt_y v + i)%float in
      Ok {| pt_x := X / W; pt_y := Y / W |}
  | _ => Raise TypeError
  end.

(** As the sample, but the ground projector divides without a test. *)
Definition dividing : ComputerVision := {|
  CameraModel := Sample.Camera;
  GroundProjector := Sample.Projector;
  CameraModel_new w h k d p hm :=
    Ok {| Sample.cm_width := w; Sample.cm_height := h; Sample.cm_K := k;
          Sample.cm_D := d; Sample.cm_P := p; Sample.cm_H := hm |};
  GroundProjector_new cam := Ok {| Sample.gp_camera := cam |};
  rectify_pixel _ p := Ok p;
  pixel2vector _ p := Ok p;
  vector2ground := homography_divide
|}.

(** The node of that library after [__init__] on [disk_default]. *)
Definition started : @Node dividing Sample.opencv :=
  snd (@__init__ dividing Sample.opencv Sample.yaml Sample.disk_default
         "/duckiebot/" (@blank dividing Sample.opencv)).

(** That node after the first camera info. *)
Definition ready : @Node dividing Sample.opencv :=
  snd (@cb_camera_info dividing Sample.opencv Sample.info_msg started).

(** What the callback does with [batch5] on that node. *)
Definition handled5 : Py.result unit * @Node dividing Sample.opencv :=
  @lineseglist_cb dividing Sample.opencv Sample.tags 0 Sample.batch5 ready.

End SampleDividing.

Module SampleNoKey.
Import GroundProjection.

(** A yaml whose every text parses to a mapping without entries. *)
Definition empty_yaml : Yaml := {| yaml_load _ := Ok ∅ |}.

End SampleNoKey.

Module SampleAntiInstagram.
Import AntiInstagram.

(** Images are byte sequences, an empty payload does not decode, and the
    estimator keeps the least and the greatest byte seen. *)
#[export] Instance library : Library := {|
  CompressedImage := list Z;
  Image := list Z;
  Estimator := Z * Z;
  Threshold := Z;
  update img := fun a =>
    (Ok tt, (fold_right Z.min (fst a) img, fold_right Z.max (snd a) img));
  lower_threshold := fst;
  higher_threshold := snd;
  compressed_imgmsg_to_cv2 payload :=
    match payload with
    | [] => Raise ValueError
    | _ => Ok payload
    end
|}.

(** A node that has published once and then stored an empty payload. *)
Definition stale : Node :=
  {| ai := (10, 200); image_msg := Some [];
     pub := [{| low := 10; high := 200 |}]; logs := ["Initialized."] |}.

(** A node that has just started: no image yet. *)
Definition fresh : Node :=
  {| ai := (255, 0); image_msg := None; pub := []; logs := ["Initialized."] |}.

End SampleAntiInstagram.

Module SampleStrict.
Import AntiInstagram.

(** As the sample, but the decoder refuses every payload with TypeError. *)
Definition strict_library : Library := {|
  CompressedImage := list Z;
  Image := list Z;
  Estimator := Z * Z;
  Threshold := Z;
  update img := fun a => (Ok tt, a);
  lower_threshold := fst;
  higher_threshold := snd;
  compressed_imgmsg_to_cv2 _ := Raise TypeError
|}.

(** A node of that library with an image stored. *)
Definition held : @Node strict_library :=
  @Build_Node strict_library (0, 0) (Some [1; 2]) [] [].

End SampleStrict.

(** * Facts

    Everything below is proved about the definitions above. *)

Local Open Scope list_scope.

(** ** Method bodies *)

Section Monad.
Context {S : Type}.

Lemma bind_unfold {A B} (m : M S A) (k : A -> M S B) (s : S) :
  (m ≫= k) s =
  match m s with
  | (Ok a, s') => k a s'
  | (Raise e, s') => (Raise e, s')
  end.
Proof. reflexivity. Qed.

Lemma bind_ok {A B} (m : M S A) (k : A -> M S B) (s s' : S) (a : A) :
  m s = (Ok a, s') -> (m ≫= k) s = k a s'.
Proof. intros E. rewrite bind_unfold, E. reflexivity. Qed.

Context (R : S -> S -> Prop) `{!PreOrder R}.

Lemma preserves_ret {A} (a : A) : preserves R (mret a : M S A).
Proof. intros s. simpl. reflexivity. Qed.

Lemma preserves_raise {A} (e : exn) : preserves R (raise e : M S A).
Proof. intros s. simpl. reflexivity. Qed.

Lemma preserves_lift {A} (r : result A) : preserves R (lift r : M S A).
Proof. intros s. simpl. reflexivity. Qed.

Lemma preserves_gets {A} (f : S -> A) : preserves R (gets f).
Proof. intros s. simpl. reflexivity. Qed.

Lemma preserves_modify (f : S -> S) :
  (forall s, R s (f s)) -> preserves R (modify f).
Proof. intros Hf s. apply Hf. Qed.

Lemma preserves_bind {A B} (m : M S A) (k : A -> M S B) :
  preserves R m -> (forall a, preserves R (k a)) -> preserves R (m ≫= k).
Proof.
  intros Hm Hk s. rewrite bind_unfold.
  specialize (Hm s). destruct (m s) as [[a|e] s']; simpl in *.
  - etransitivity; [exact Hm | apply Hk].
  - exact Hm.
Qed.

Lemma preserves_for_each {A} (xs : list A) (body : A -> M S unit) :
  (forall x, preserves R (body x)) -> preserves R (for_each xs body).
Proof.
  intros Hb. induction xs as [|x xs IH]; simpl.
  - apply preserves_ret.
  - apply preserves_bind; [apply Hb | intros _; exact IH].
Qed.

Lemma preserves_try_except {A} (body : M S A) (c : exn -> bool)
    (h : exn -> M S A) :
  preserves R body -> (forall e, preserves R (h e)) ->
  preserves R (try_except body c h).
Proof.
  intros Hb Hh s. unfold try_except.
  specialize (Hb s). destruct (body s) as [[a|e] s']; simpl in *; [exact Hb|].
  destruct (c e); simpl; [|exact Hb].
  etransitivity; [exact Hb | apply Hh].
Qed.

End Monad.

(** [for_each] skips the elements on which the body does nothing. *)
Lemma for_each_filter {S A} (keep : A -> bool) (xs : list A)
    (body : A -> M S unit) (s : S) :
  (forall x s, keep x = false -> body x s = (Ok tt, s)) ->
  for_each xs body s = for_each (List.filter keep xs) body s.
Proof.
  intros Hskip. revert s. induction xs as [|x xs IH]; intros s; simpl.
  - reflexivity.
  - destruct (keep x) eqn:Ek; simpl.
    + rewrite !bind_unfold. destruct (body x s) as [[[]|e] s']; [apply IH|reflexivity].
    + rewrite bind_unfold, (Hskip x s Ek). apply IH.
Qed.

(** [mapM] on results: all or nothing, in order. *)
Lemma mapM_ok_Forall2 {A B} (f : A -> result B) (xs : list A) (ys : list B) :
  mapM f xs = Ok ys <-> Forall2 (fun x y => f x = Ok y) xs ys.
Proof.
  revert ys. induction xs as [|x xs IH]; intros ys; simpl.
  - split.
    + intros [= <-]. constructor.
    + intros Hf. inversion Hf. reflexivity.
  - split.
    + destruct (f x) as [y|e] eqn:Ey; simpl; [|discriminate].
      destruct (mapM f xs) as [ys'|e] eqn:Em; simpl; [|discriminate].
      intros [= <-]. constructor; [exact Ey | apply IH; reflexivity].
    + intros Hf. inversion Hf as [|? y ? ys' Hy Hys]; subst.
      rewrite Hy. simpl. apply IH in Hys. rewrite Hys. reflexivity.
Qed.

Lemma mapM_all_ok {A B} (f : A -> result B) (xs : list A) :
  (forall x, x ∈ xs -> is_ok (f x) = true) -> exists ys, mapM f xs = Ok ys.
Proof.
  induction xs as [|x xs IH]; intros Hall; simpl.
  - eexists; reflexivity.
  - destruct (f x) as [y|e] eqn:Ey.
    + destruct IH as [ys Hys].
      { intros x' Hx'. apply Hall. right. exact Hx'. }
      exists (y :: ys). simpl. rewrite Hys. reflexivity.
    + specialize (Hall x (list_elem_of_here _ _)). rewrite Ey in Hall. discriminate.
Qed.

Lemma mapM_some_raise {A B} (f : A -> result B) (xs : list A) (x : A) :
  x ∈ xs -> is_ok (f x) = false -> exists e, mapM f xs = Raise e.
Proof.
  intros Hin Hx. induction Hin as [x xs|x x' xs Hin IH]; simpl.
  - destruct (f x) as [y|e]; [discriminate|]. exists e. reflexivity.
  - destruct (f x') as [y|e]; simpl; [|exists e; reflexivity].
    destruct (IH Hx) as [e He]. rewrite He. exists e. reflexivity.
Qed.

(** ** The ground projection node *)

Section GroundProjectionFacts.
Import GroundProjection.
Context {vision : ComputerVision} {opencv : OpenCV} {yaml : Yaml}
  {tags : SegmentTags}.

Lemma keeps_preorder {V} (view : Node -> V) : PreOrder (keeps view).
Proof.
  split.
  - intros s. reflexivity.
  - intros s1 s2 s3 H12 H23. unfold keeps in *. congruence.
Qed.
#[local] Existing Instance keeps_preorder.

Ltac frame_step :=
  lazymatch goal with
  | |- preserves _ (mret _) => apply preserves_ret; apply _
  | |- preserves _ (raise _) => apply preserves_raise; apply _
  | |- preserves _ (lift _) => apply preserves_lift; apply _
  | |- preserves _ (gets _) => apply preserves_gets; apply _
  | |- preserves _ (modify _) => apply preserves_modify; intros ?; reflexivity
  | |- preserves _ (mbind _ _) => apply preserves_bind; [apply _ | | intros ?]
  | |- preserves _ (for_each _ _) => apply preserves_for_each; [apply _ | intros ?]
  | |- preserves _ (try_except _ _ _) =>
      apply preserves_try_except; [apply _ | | intros ?]
  | |- preserves _ (match ?x with _ => _ end) => destruct x
  end.

Lemma project_segments_spec (received out : list Segment) (s : Node) :
  project_segments received out s =
  (match mapM (project_segment (camera s) (ground_projector s)) received with
   | Ok l => Ok (out ++ l)
   | Raise e => Raise e
   end, s).
Proof.
  revert out. induction received as [|seg rest IH]; intros out; simpl.
  - rewrite app_nil_r. reflexivity.
  - unfold mbind, M_bind, gets, lift.
    destruct (project_segment (camera s) (ground_projector s) seg) as [o|e]; simpl;
      [|reflexivity].
    rewrite IH.
    destruct (mapM _ rest) as [l|e]; simpl; [|reflexivity].
    rewrite <- app_assoc. reflexivity.
Qed.

Lemma debug_image_keeps {V} (view : Node -> V) seg_list :
  (forall v s, view (set_arrays v s) = view s) ->
  (forall v s, view (set_debug_img_bg v s) = view s) ->
  preserves (keeps view) (debug_image seg_list).
Proof.
  intros Ha Hb.
  assert (Halloc : forall im, preserves (keeps view) (alloc im)).
  { intros im s. apply Ha. }
  assert (Hdraw : forall r f, preserves (keeps view) (draw r f)).
  { intros r f s. apply Ha. }
  assert (Hderef : forall r, preserves (keeps view) (deref r)).
  { intros r s. unfold deref. destruct (arrays s !! r); reflexivity. }
  assert (Hdraw_bg : forall f, preserves (keeps view) (draw_bg f)).
  { intros f. unfold draw_bg. repeat frame_step. apply Hdraw. }
  assert (Hset : forall v, preserves (keeps view) (modify (set_debug_img_bg v))).
  { intros v s. apply Hb. }
  unfold debug_image, generate_background, plot_segment, copy.
  repeat lazymatch goal with
    | |- preserves _ (alloc _) => apply Halloc
    | |- preserves _ (draw _ _) => apply Hdraw
    | |- preserves _ (deref _) => apply Hderef
    | |- preserves _ (draw_bg _) => apply Hdraw_bg
    | |- preserves _ (modify (set_debug_img_bg _)) => apply Hset
    | |- _ => frame_step
    end.
Qed.


Lemma project_segments_keeps {V} (view : Node -> V) received out :
  preserves (keeps view) (project_segments received out).
Proof. intros s. rewrite project_segments_spec. reflexivity. Qed.

Lemma deref_keeps {V} (view : Node -> V) r : preserves (keeps view) (deref r).
Proof. intros s. unfold deref. destruct (arrays s !! r); reflexivity. Qed.

Ltac frame_node :=
  repeat lazymatch goal with
    | |- preserves _ (project_segments _ _) => apply project_segments_keeps
    | |- preserves _ (deref _) => apply deref_keeps
    | |- preserves _ (debug_image _) =>
        apply debug_image_keeps; intros ? ?; reflexivity
    | |- preserves _ (log _ _) => unfold log
    | |- preserves _ (signal_shutdown _) => unfold signal_shutdown
    | |- _ => frame_step
    end.

Lemma lineseglist_cb_not_ready (s : Node) n msg :
  camera_info_received s = false ->
  lineseglist_cb n msg s =
  (Ok tt, add_log warn "Waiting for a CameraInfo message" s).
Proof.
  intros E. unfold lineseglist_cb. rewrite bind_unfold. unfold gets at 1.
  rewrite E. reflexivity.
Qed.

Lemma lineseglist_cb_raises (s : Node) n msg e :
  camera_info_received s = true ->
  mapM (project_segment (camera s) (ground_projector s)) (segments msg) = Raise e ->
  lineseglist_cb n msg s = (Raise e, s).
Proof.
  intros E Hm. unfold lineseglist_cb. rewrite bind_unfold. unfold gets at 1.
  rewrite E. rewrite bind_unfold, project_segments_spec, Hm. reflexivity.
Qed.

Lemma lineseglist_cb_publishes (s : Node) n msg out :
  camera_info_received s = true ->
  mapM (project_segment (camera s) (ground_projector s)) (segments msg) = Ok out ->
  pub_lineseglist (snd (lineseglist_cb n msg s)) =
  pub_lineseglist s ++ [{| header := header msg; segments := out |}].
Proof.
  intros E Hm. unfold lineseglist_cb. rewrite bind_unfold. unfold gets at 1.
  rewrite E. rewrite bind_unfold, project_segments_spec, Hm. simpl app.
  rewrite bind_unfold. unfold modify at 1.
  match goal with
  | |- pub_lineseglist (snd (?rest ?s1)) = _ =>
      assert (Hk : preserves (keeps pub_lineseglist) rest) by frame_node;
      rewrite (Hk s1)
  end.
  reflexivity.
Qed.

Lemma lineseglist_cb_keeps_calibration n msg :
  preserves (keeps calibration) (lineseglist_cb n msg).
Proof. unfold lineseglist_cb. frame_node. Qed.

Lemma cb_camera_info_ready (s : Node) msg :
  camera_info_received s = true -> cb_camera_info msg s = (Ok tt, s).
Proof.
  intros E. unfold cb_camera_info. rewrite bind_unfold. unfold gets.
  rewrite E. simpl. destruct s; simpl in *; subst. reflexivity.
Qed.

Lemma cb_camera_info_first (s s1 : Node) msg :
  camera_info_received s = false ->
  cb_camera_info msg s = (Ok tt, s1) ->
  exists k p cam gp,
    reshape (K msg) 3 3 = Ok k /\ reshape (P msg) 3 4 = Ok p /\
    CameraModel_new (width msg) (height msg) k (D msg) p (homography s) = Ok cam /\
    GroundProjector_new cam = Ok gp /\
    s1 = set_camera_info_received true
           (set_ground_projector (Some gp) (set_camera (Some cam) s)).
Proof.
  intros E. unfold cb_camera_info. unfold mbind, M_bind, gets, lift, modify.
  rewrite E. simpl.
  destruct (reshape (K msg) 3 3) as [k|e] eqn:Hk; [|discriminate].
  destruct (reshape (P msg) 3 4) as [p|e] eqn:Hp; [|discriminate].
  destruct (CameraModel_new _ _ _ _ _ _) as [cam|e] eqn:Hc; [|discriminate].
  simpl.
  destruct (GroundProjector_new cam) as [gp|e] eqn:Hg; [|discriminate].
  intros [= <-]. exists k, p, cam, gp. repeat split; assumption.
Qed.

Lemma spin_cons ev evs (s : Node) :
  spin (ev :: evs) s = spin evs (snd (dispatch ev s)).
Proof. reflexivity. Qed.

Lemma dispatch_ready_keeps_calibration ev (s : Node) :
  camera_info_received s = true ->
  calibration (snd (dispatch ev s)) = calibration s.
Proof.
  intros E. destruct ev as [msg|n msg]; simpl.
  - rewrite (cb_camera_info_ready s msg E). reflexivity.
  - apply lineseglist_cb_keeps_calibration.
Qed.

Lemma spin_ready_keeps_calibration evs (s : Node) :
  camera_info_received s = true ->
  calibration (spin evs s) = calibration s.
Proof.
  revert s. induction evs as [|ev evs IH]; intros s E; [reflexivity|].
  rewrite spin_cons.
  pose proof (dispatch_ready_keeps_calibration ev s E) as Hd.
  rewrite IH; [exact Hd|].
  unfold calibration in Hd. congruence.
Qed.

Lemma cb_camera_info_build (s : Node) msg :
  camera_info_received s = false ->
  match build (homography s) msg with
  | Ok (cam, gp) =>
      cb_camera_info msg s =
      (Ok tt, set_camera_info_received true
                (set_ground_projector (Some gp) (set_camera (Some cam) s)))
  | Raise e =>
      exists s1, cb_camera_info msg s = (Raise e, s1) /\
        camera_info_received s1 = false /\
        homography s1 = homography s /\
        ground_projector s1 = ground_projector s
  end.
Proof.
  intros E. unfold cb_camera_info.
  unfold mbind, M_bind, gets, lift, modify.
  rewrite E. simpl. unfold build.
  destruct (reshape (K msg) 3 3) as [k|e]; simpl; [|eauto].
  destruct (reshape (P msg) 3 4) as [p|e]; simpl; [|eauto].
  destruct (CameraModel_new _ _ _ _ _ _) as [cam|e]; simpl; [|eauto].
  destruct (GroundProjector_new cam) as [gp|e]; simpl; [reflexivity|].
  eexists. split; [reflexivity|]. simpl. auto.
Qed.

Lemma spin_camera_infos_ready msgs (s : Node) :
  camera_info_received s = true -> spin (map camera_info msgs) s = s.
Proof.
  intros E. induction msgs as [|msg msgs IH]; [reflexivity|].
  simpl map. rewrite spin_cons. simpl dispatch.
  rewrite (cb_camera_info_ready s msg E). exact IH.
Qed.

Lemma spin_camera_infos msgs (s : Node) :
  camera_info_received s = false ->
  (forall cam gp, first_built (homography s) msgs = Some (cam, gp) ->
     camera_info_received (spin (map camera_info msgs) s) = true /\
     camera (spin (map camera_info msgs) s) = Some cam /\
     ground_projector (spin (map camera_info msgs) s) = Some gp) /\
  (first_built (homography s) msgs = None ->
     camera_info_received (spin (map camera_info msgs) s) = false /\
     ground_projector (spin (map camera_info msgs) s) = ground_projector s).
Proof.
  revert s. induction msgs as [|msg msgs IH]; intros s E.
  - simpl. split; [discriminate|auto].
  - simpl map. rewrite spin_cons. simpl dispatch. simpl first_built.
    pose proof (cb_camera_info_build s msg E) as Hb.
    destruct (build (homography s) msg) as [[cam gp]|e].
    + rewrite Hb. cbn [snd]. rewrite spin_camera_infos_ready by reflexivity.
      split; [|discriminate].
      intros cam0 gp0 [= <- <-]. auto.
    + destruct Hb as (s1 & -> & E1 & Hh & Hg). cbn [snd].
      destruct (IH s1 E1) as [HS HN]. rewrite Hh in HS, HN. rewrite Hg in HN.
      split; assumption.
Qed.

(** C3, as the code has it. The camera model and the ground projector that
    a node that is not ready ends with, after any sequence of camera infos,
    are those built from the first camera info of the sequence that builds
    at all (both reshapes and both constructors return), which need not be
    the first received: a camera info whose handling raises leaves the node
    not ready, and when none builds the node stays not ready, its ground
    projector as it was. Handling returns exactly when the message builds.
    Once the node is ready, a camera info changes nothing, and no sequence
    of camera infos and segment lists changes the readiness flag, the camera
    model or the ground projector. *)
Theorem camera_model_latch (s : Node) (msgs : list CameraInfo) :
  camera_info_received s = false ->
  let s' := spin (map camera_info msgs) s in
  (forall cam gp, first_built (homography s) msgs = Some (cam, gp) ->
     camera_info_received s' = true /\
     camera s' = Some cam /\ ground_projector s' = Some gp) /\
  (first_built (homography s) msgs = None ->
     camera_info_received s' = false /\
     ground_projector s' = ground_projector s) /\
  (forall (t : Node) (msg : CameraInfo),
     camera_info_received t = false ->
     is_ok (fst (cb_camera_info msg t)) = is_ok (build (homography t) msg) /\
     camera_info_received (snd (cb_camera_info msg t))
       = is_ok (build (homography t) msg)) /\
  (forall t : Node,
     camera_info_received t = true ->
     (forall later : CameraInfo, cb_camera_info later t = (Ok tt, t)) /\
     (forall evs : list event,
        camera_info_received (spin evs t) = true /\
        camera (spin evs t) = camera t /\
        ground_projector (spin evs t) = ground_projector t)).
Proof.
  intros E s'. subst s'.
  destruct (spin_camera_infos msgs s E) as [HS HN].
  split; [exact HS|]. split; [exact HN|]. split.
  - intros t msg Et. pose proof (cb_camera_info_build t msg Et) as Hb.
    destruct (build (homography t) msg) as [[cam gp]|e].
    + rewrite Hb. split; reflexivity.
    + destruct Hb as (s1 & -> & E1 & _). split; [reflexivity|exact E1].
  - intros t Et. split.
    + intros later. apply cb_camera_info_ready. exact Et.
    + intros evs. pose proof (spin_ready_keeps_calibration evs t Et) as Hc.
      unfold calibration in Hc. injection Hc as -> -> ->. auto.
Qed.

Lemma dispatch_not_ready n msg (s : Node) :
  camera_info_received s = false ->
  dispatch (lineseglist_in n msg) s =
  (Ok tt, add_log warn "Waiting for a CameraInfo message" s).
Proof. apply lineseglist_cb_not_ready. Qed.

Lemma init_not_ready fs namespace (s0 : Node) :
  __init__ fs namespace blank = (Ok tt, s0) ->
  camera_info_received s0 = false /\ pub_lineseglist s0 = [] /\
  pub_debug_img s0 = [].
Proof.
  intros Hinit.
  assert (Hout : preserves (keeps outputs) (__init__ fs namespace)).
  { unfold __init__, load_extrinsics. frame_node. }
  specialize (Hout blank). rewrite Hinit in Hout. unfold keeps, outputs in Hout.
  simpl in Hout. injection Hout as -> ->. split; [|auto].
  revert Hinit. unfold __init__. unfold mbind at 1 2 3 4 5 6 7, M_bind. unfold modify.
  destruct (load_extrinsics fs namespace _) as [[h|e] s']; [|discriminate].
  unfold lift. destruct (reshape h 3 3) as [h33|e]; [|discriminate].
  intros [= <-]. reflexivity.
Qed.

(** C7. While the node is not ready (as it is after [__init__], until a
    camera info is handled), every segment list is skipped: the callback
    returns without raising, publishes no segment list and no debug image,
    and logs one warning. *)
Theorem not_ready_skips_batches (s : Node) (evs : list event) :
  camera_info_received s = false ->
  forallb is_lineseglist_in evs = true ->
  let s' := spin evs s in
  camera_info_received s' = false /\
  pub_lineseglist s' = pub_lineseglist s /\
  pub_debug_img s' = pub_debug_img s /\
  arrays s' = arrays s /\
  logs s' =
    logs s ++ repeat (warn, "Waiting for a CameraInfo message") (length evs) /\
  Forall (fun ev => forall s1 : Node, camera_info_received s1 = false ->
                    fst (dispatch ev s1) = Ok tt) evs /\
  (forall fs namespace s0,
     __init__ fs namespace blank = (Ok tt, s0) ->
     camera_info_received s0 = false /\ pub_lineseglist s0 = [] /\
     pub_debug_img s0 = []).
Proof.
  intros E Hevs. simpl.
  assert (Hspin : camera_info_received (spin evs s) = false /\
    pub_lineseglist (spin evs s) = pub_lineseglist s /\
    pub_debug_img (spin evs s) = pub_debug_img s /\
    arrays (spin evs s) = arrays s /\
    logs (spin evs s) =
      logs s ++ repeat (warn, "Waiting for a CameraInfo message") (length evs)).
  { revert s E. induction evs as [|ev evs IH]; intros s E.
    - simpl. rewrite app_nil_r. auto.
    - simpl in Hevs. apply andb_true_iff in Hevs as [Hev Hevs].
      destruct ev as [msg|n msg]; [discriminate|].
      rewrite spin_cons, (dispatch_not_ready n msg s E). cbn [snd].
      destruct (IH Hevs (add_log warn "Waiting for a CameraInfo message" s) E)
        as (H1 & H2 & H3 & H4 & H5).
      rewrite H1, H2, H3, H4, H5. simpl. rewrite <- app_assoc. auto. }
  destruct Hspin as (H1 & H2 & H3 & H4 & H5).
  repeat (split; [assumption|]). split.
  - clear - Hevs. induction evs as [|ev evs IH]; [constructor|].
    simpl in Hevs. apply andb_true_iff in Hevs as [Hev Hevs].
    constructor; [|apply IH; exact Hevs].
    destruct ev as [msg|n msg]; [discriminate|].
    intros s1 E1. rewrite (dispatch_not_ready n msg s1 E1). reflexivity.
  - apply init_not_ready.
Qed.


Lemma project_segment_reads cam' gp' (seg o : Segment) :
  project_segment cam' gp' seg = Ok o ->
  exists cam gp l0 l1 x0 y0 x1 y1 r0 r1 v0 v1 g0 g1,
    cam' = Some cam /\ gp' = Some gp /\
    pixels_normalized seg = [l0; l1] /\
    l0 !! 0%nat = Some x0 /\ l0 !! 1%nat = Some y0 /\
    l1 !! 2%nat = Some x1 /\ l1 !! 3%nat = Some y1 /\
    rectify_pixel cam {| pt_x := x0; pt_y := y0 |} = Ok r0 /\
    pixel2vector cam r0 = Ok v0 /\ vector2ground gp v0 = Ok g0 /\
    rectify_pixel cam {| pt_x := x1; pt_y := y1 |} = Ok r1 /\
    pixel2vector cam r1 = Ok v1 /\ vector2ground gp v1 = Ok g1 /\
    color o = color seg /\
    points o = ({| msg_x := pt_x g0; msg_y := pt_y g0; msg_z := 0 |},
                {| msg_x := pt_x g1; msg_y := pt_y g1; msg_z := 0 |}).
Proof.
  unfold project_segment, endpoints, unpack2, getitem.
  destruct (pixels_normalized seg) as [|l0 [|l1 [|l2 rows]]]; simpl;
    try discriminate.
  destruct (l0 !! 0%nat) as [x0|] eqn:Ex0; simpl; [|discriminate].
  destruct (l0 !! 1%nat) as [y0|] eqn:Ey0; simpl; [|discriminate].
  destruct (l1 !! 2%nat) as [x1|] eqn:Ex1; simpl; [|discriminate].
  destruct (l1 !! 3%nat) as [y1|] eqn:Ey1; simpl; [|discriminate].
  destruct cam' as [cam|]; simpl; [|discriminate].
  destruct (rectify_pixel cam {| pt_x := x0; pt_y := y0 |}) as [r0|e] eqn:Er0;
    simpl; [|discriminate].
  destruct (rectify_pixel cam {| pt_x := x1; pt_y := y1 |}) as [r1|e] eqn:Er1;
    simpl; [|discriminate].
  destruct (pixel2vector cam r0) as [v0|e] eqn:Ev0; simpl; [|discriminate].
  destruct (pixel2vector cam r1) as [v1|e] eqn:Ev1; simpl; [|discriminate].
  destruct gp' as [gp|]; simpl; [|discriminate].
  destruct (vector2ground gp v0) as [g0|e] eqn:E0; simpl; [|discriminate].
  destruct (vector2ground gp v1) as [g1|e] eqn:E1; simpl; [|discriminate].
  intros [= <-].
  exists cam, gp, l0, l1, x0, y0, x1, y1, r0, r1, v0, v1, g0, g1.
  repeat (split; [first [reflexivity | assumption]|]). reflexivity.
Qed.

Lemma projector_raise_is_not_caught cam gp (seg : Segment)
    l0 l1 x0 y0 x1 y1 r0 r1 v0 v1 :
  pixels_normalized seg = [l0; l1] ->
  l0 !! 0%nat = Some x0 -> l0 !! 1%nat = Some y0 ->
  l1 !! 2%nat = Some x1 -> l1 !! 3%nat = Some y1 ->
  rectify_pixel cam {| pt_x := x0; pt_y := y0 |} = Ok r0 ->
  rectify_pixel cam {| pt_x := x1; pt_y := y1 |} = Ok r1 ->
  pixel2vector cam r0 = Ok v0 -> pixel2vector cam r1 = Ok v1 ->
  is_ok (vector2ground gp v0) && is_ok (vector2ground gp v1) = false ->
  is_ok (project_segment (Some cam) (Some gp) seg) = false.
Proof.
  intros Hp Hx0 Hy0 Hx1 Hy1 Hr0 Hr1 Hv0 Hv1 Hg.
  unfold project_segment, endpoints, unpack2, getitem.
  rewrite Hp. simpl. rewrite Hx0, Hy0, Hx1, Hy1. simpl.
  rewrite Hr0, Hr1. simpl. rewrite Hv0, Hv1. simpl.
  destruct (vector2ground gp v0) as [g0|e]; simpl; [|reflexivity].
  destruct (vector2ground gp v1) as [g1|e]; simpl; [discriminate|reflexivity].
Qed.

Lemma lineseglist_cb_publishes_all (s : Node) n msg :
  camera_info_received s = true ->
  (forall seg, seg ∈ segments msg ->
     is_ok (project_segment (camera s) (ground_projector s) seg) = true) ->
  exists out,
    Forall2 (fun seg o =>
               project_segment (camera s) (ground_projector s) seg = Ok o)
            (segments msg) out /\
    pub_lineseglist (snd (lineseglist_cb n msg s)) =
      pub_lineseglist s ++ [{| header := header msg; segments := out |}].
Proof.
  intros E Hall. destruct (mapM_all_ok _ _ Hall) as [out Hout].
  exists out. split; [apply mapM_ok_Forall2; exact Hout|].
  exact (lineseglist_cb_publishes s n msg out E Hout).
Qed.

Lemma lineseglist_cb_publishes_projections (s : Node) n msg :
  camera_info_received s = true ->
  (forall seg, seg ∈ segments msg ->
     is_ok (project_segment (camera s) (ground_projector s) seg) = true) ->
  exists out,
    pub_lineseglist (snd (lineseglist_cb n msg s)) =
      pub_lineseglist s ++ [{| header := header msg; segments := out |}] /\
    length out = length (segments msg) /\
    forall i seg, segments msg !! i = Some seg ->
      exists cam gp l0 l1 x0 y0 x1 y1 r0 r1 v0 v1 g0 g1 o,
        camera s = Some cam /\ ground_projector s = Some gp /\
        pixels_normalized seg = [l0; l1] /\
        l0 !! 0%nat = Some x0 /\ l0 !! 1%nat = Some y0 /\
        l1 !! 2%nat = Some x1 /\ l1 !! 3%nat = Some y1 /\
        rectify_pixel cam {| pt_x := x0; pt_y := y0 |} = Ok r0 /\
        pixel2vector cam r0 = Ok v0 /\ vector2ground gp v0 = Ok g0 /\
        rectify_pixel cam {| pt_x := x1; pt_y := y1 |} = Ok r1 /\
        pixel2vector cam r1 = Ok v1 /\ vector2ground gp v1 = Ok g1 /\
        out !! i = Some o /\
        color o = color seg /\
        points o = ({| msg_x := pt_x g0; msg_y := pt_y g0; msg_z := 0 |},
                    {| msg_x := pt_x g1; msg_y := pt_y g1; msg_z := 0 |}).
Proof.
  intros E Hall.
  destruct (lineseglist_cb_publishes_all s n msg E Hall) as (out & Hout & Hpub).
  exists out. split; [exact Hpub|].
  split; [symmetry; exact (Forall2_length _ _ _ Hout)|].
  intros i seg Hi.
  destruct (Forall2_lookup_l _ _ _ _ _ Hout Hi) as (o & Ho & Hp).
  destruct (project_segment_reads _ _ _ _ Hp)
    as (cam & gp & l0 & l1 & x0 & y0 & x1 & y1 & r0 & r1 & v0 & v1 & g0 & g1
        & Hc & Hg & Hrows & Hx0 & Hy0 & Hx1 & Hy1
        & Hr0 & Hv0 & Hg0 & Hr1 & Hv1 & Hg1 & Hcol & Hpts).
  exists cam, gp, l0, l1, x0, y0, x1, y1, r0, r1, v0, v1, g0, g1, o.
  repeat (split; [assumption|]). assumption.
Qed.



(** C1, as the code has it. When the node is ready, no segment is dropped
    on its own: a received list is published whole or not at all. If the
    projection of some segment raises, and in particular if the ground
    projector raises for one of its two rays, the callback raises, publishes
    nothing and leaves the node as it was. If every projection returns,
    whatever the points returned, one list is published with as many
    segments as the received one and in its order: the segment at index i
    has the colour of the received segment at index i and the two points
    the ground projector returned for its two pixels. *)
Theorem no_segment_is_dropped (s : Node) (n : nat) (msg : SegmentList) :
  camera_info_received s = true ->
  let r := lineseglist_cb n msg s in
  (forall seg,
     seg ∈ segments msg ->
     is_ok (project_segment (camera s) (ground_projector s) seg) = false ->
     exists e, r = (Raise e, s)) /\
  (forall cam gp seg l0 l1 x0 y0 x1 y1 r0 r1 v0 v1,
     camera s = Some cam -> ground_projector s = Some gp ->
     seg ∈ segments msg ->
     pixels_normalized seg = [l0; l1] ->
     l0 !! 0%nat = Some x0 -> l0 !! 1%nat = Some y0 ->
     l1 !! 2%nat = Some x1 -> l1 !! 3%nat = Some y1 ->
     rectify_pixel cam {| pt_x := x0; pt_y := y0 |} = Ok r0 ->
     rectify_pixel cam {| pt_x := x1; pt_y := y1 |} = Ok r1 ->
     pixel2vector cam r0 = Ok v0 -> pixel2vector cam r1 = Ok v1 ->
     is_ok (vector2ground gp v0) && is_ok (vector2ground gp v1) = false ->
     exists e, r = (Raise e, s) /\ pub_lineseglist (snd r) = pub_lineseglist s) /\
  ((forall seg, seg ∈ segments msg ->
      is_ok (project_segment (camera s) (ground_projector s) seg) = true) ->
   exists out,
     pub_lineseglist (snd r) =
       pub_lineseglist s ++ [{| header := header msg; segments := out |}] /\
     length out = length (segments msg) /\
     forall i seg, segments msg !! i = Some seg ->
       exists cam gp l0 l1 x0 y0 x1 y1 r0 r1 v0 v1 g0 g1 o,
         camera s = Some cam /\ ground_projector s = Some gp /\
         pixels_normalized seg = [l0; l1] /\
         l0 !! 0%nat = Some x0 /\ l0 !! 1%nat = Some y0 /\
         l1 !! 2%nat = Some x1 /\ l1 !! 3%nat = Some y1 /\
         rectify_pixel cam {| pt_x := x0; pt_y := y0 |} = Ok r0 /\
         pixel2vector cam r0 = Ok v0 /\ vector2ground gp v0 = Ok g0 /\
         rectify_pixel cam {| pt_x := x1; pt_y := y1 |} = Ok r1 /\
         pixel2vector cam r1 = Ok v1 /\ vector2ground gp v1 = Ok g1 /\
         out !! i = Some o /\
         color o = color seg /\
         points o = ({| msg_x := pt_x g0; msg_y := pt_y g0; msg_z := 0 |},
                     {| msg_x := pt_x g1; msg_y := pt_y g1; msg_z := 0 |})).
Proof.
  intros E r.
  assert (Hraise : forall seg, seg ∈ segments msg ->
    is_ok (project_segment (camera s) (ground_projector s) seg) = false ->
    exists e, r = (Raise e, s)).
  { intros seg Hin Hseg.
    destruct (mapM_some_raise _ _ _ Hin Hseg) as [e He].
    exists e. exact (lineseglist_cb_raises s n msg e E He). }
  split; [exact Hraise|]. split.
  - intros cam gp seg l0 l1 x0 y0 x1 y1 r0 r1 v0 v1 Hc Hg Hin
      Hp Hx0 Hy0 Hx1 Hy1 Hr0 Hr1 Hv0 Hv1 Hno.
    destruct (Hraise seg Hin) as [e He].
    { rewrite Hc, Hg.
      exact (projector_raise_is_not_caught cam gp seg l0 l1 x0 y0 x1 y1
               r0 r1 v0 v1 Hp Hx0 Hy0 Hx1 Hy1 Hr0 Hr1 Hv0 Hv1 Hno). }
    exists e. split; [exact He|]. rewrite He. reflexivity.
  - intros Hall. exact (lineseglist_cb_publishes_projections s n msg E Hall).
Qed.

(** C2. A segment whose [pixels_normalized] holds four floats in all is not
    read as two pixels: whatever their split into rows, building the pixels
    raises. *)
Theorem endpoints_of_four_floats_raise (seg : Segment) :
  length (concat (pixels_normalized seg)) = 4%nat ->
  is_ok (endpoints seg) = false.
Proof.
  unfold endpoints. destruct (pixels_normalized seg) as [|l0 [|l1 [|l2 rows]]];
    simpl; try reflexivity.
  rewrite app_nil_r, length_app. intros Hlen.
  destruct l0 as [|a [|b l0]]; simpl; try reflexivity.
  destruct l1 as [|c0 [|c1 [|c2 [|c3 l1]]]]; simpl; try reflexivity.
  simpl in Hlen. lia.
Qed.

(** What the loop body reads: the second pixel comes from places 2 and 3 of
    the second row, not from the floats that follow the first pixel. *)
Lemma endpoints_reads_second_row c pts a0 a1 r0 b0 b1 b2 b3 r1 :
  endpoints {| color := c;
               pixels_normalized := [a0 :: a1 :: r0; b0 :: b1 :: b2 :: b3 :: r1];
               points := pts |}
  = Ok ({| pt_x := a0; pt_y := a1 |}, {| pt_x := b2; pt_y := b3 |}).
Proof. reflexivity. Qed.


(** *** The debug image *)

Lemma alter_at_end {A} (f : A -> A) (l : list A) (x : A) :
  alter f (length l) (l ++ [x]) = l ++ [f x].
Proof. induction l as [|y l IH]; cbn; [reflexivity|]. f_equal. exact IH. Qed.

Lemma lookup_at_end {A} (l : list A) (x : A) : (l ++ [x]) !! length l = Some x.
Proof. induction l as [|y l IH]; cbn; [reflexivity|exact IH]. Qed.

Lemma draw_bg_with_background f (s : Node) im :
  draw_bg f (with_background s im) = (Ok tt, with_background s (f im)).
Proof.
  unfold draw_bg, with_background, draw, modify, gets, mbind, M_bind. simpl.
  rewrite alter_at_end. reflexivity.
Qed.

Lemma for_each_draw_bg {A} (xs : list A) (g : A -> Image -> Image)
    (s : Node) im :
  for_each xs (fun v => draw_bg (g v)) (with_background s im) =
  (Ok tt, with_background s (fold_left (fun im v => g v im) xs im)).
Proof.
  revert im. induction xs as [|x xs IH]; intros im; simpl; [reflexivity|].
  rewrite (bind_ok _ _ _ _ _ (draw_bg_with_background _ _ _)). apply IH.
Qed.

Lemma generate_background_spec (s : Node) :
  generate_background s = (Ok tt, with_background s background).
Proof.
  unfold generate_background.
  rewrite bind_unfold. unfold alloc at 1. cbv beta iota.
  rewrite bind_unfold. unfold modify at 1. cbv beta iota.
  change (set_debug_img_bg _ (set_arrays _ s)) with (with_background s np_ones_128).
  rewrite (bind_ok _ _ _ _ _ (for_each_draw_bg _ _ _ _)).
  do 3 rewrite (bind_ok _ _ _ _ _ (draw_bg_with_background _ _ _)).
  rewrite (bind_ok _ _ _ _ _ (for_each_draw_bg _ _ _ _)).
  do 4 rewrite (bind_ok _ _ _ _ _ (draw_bg_with_background _ _ _)).
  rewrite draw_bg_with_background. reflexivity.
Qed.

Lemma apart_preorder image : PreOrder (apart image).
Proof.
  split.
  - intros s. repeat split.
  - intros s1 s2 s3 (Hb & Hl & Ha) (Hb' & Hl' & Ha'). repeat split.
    + congruence.
    + congruence.
    + intros j Hj. rewrite (Ha' j Hj). apply Ha, Hj.
Qed.
#[local] Existing Instance apart_preorder.

Lemma plot_loop_apart image segs :
  preserves (apart image) (for_each segs (plot_segment image)).
Proof.
  apply preserves_for_each; [apply _|]. intros seg. unfold plot_segment.
  destruct (negb (out_of_scope seg)); [|apply preserves_ret; apply _].
  repeat (apply preserves_bind; [apply _ | apply preserves_lift; apply _ | intros ?]).
  intros s. unfold draw, modify. simpl. repeat split.
  - apply length_alter.
  - intros j Hj. apply list_lookup_alter_ne. congruence.
Qed.

Lemma plot_segment_skips image (seg : Segment) (s : Node) :
  negb (out_of_scope seg) = false -> plot_segment image seg s = (Ok tt, s).
Proof. intros E. unfold plot_segment. rewrite E. reflexivity. Qed.

Lemma filter_none {A} (keep : A -> bool) (xs : list A) :
  (forall x, x ∈ xs -> keep x = false) -> List.filter keep xs = [].
Proof.
  induction xs as [|x xs IH]; intros Hall; simpl; [reflexivity|].
  rewrite (Hall x (list_elem_of_here _ _)). apply IH.
  intros x' Hx'. apply Hall. right. exact Hx'.
Qed.

Lemma then_ret_snd {A B} (m : M Node A) (b : B) (s : Node) :
  snd ((m ≫= fun _ => mret b) s) = snd (m s).
Proof. rewrite bind_unfold. destruct (m s) as [[a|e] s']; reflexivity. Qed.

Lemma then_ret_fst {A B} (m : M Node A) (b b' : B) (s : Node) :
  fst ((m ≫= fun _ => mret b) s) = Ok b' -> b' = b.
Proof.
  rewrite bind_unfold. destruct (m s) as [[a|e] s']; simpl; [|discriminate].
  intros [= <-]. reflexivity.
Qed.

Lemma debug_image_cached (s : Node) seg_list r bg :
  debug_img_bg s = Some r -> arrays s !! r = Some bg ->
  debug_image seg_list s =
  (for_each (segments seg_list) (plot_segment (length (arrays s)))
     ≫= fun _ => mret (length (arrays s)))
    (set_arrays (arrays s ++ [bg]) s).
Proof.
  intros Hr Hbg. unfold debug_image.
  rewrite bind_unfold. unfold gets at 1. cbv beta iota. rewrite Hr.
  rewrite bind_unfold. unfold mret at 1, M_ret at 1. cbv beta iota.
  rewrite bind_unfold. unfold gets at 1. cbv beta iota. rewrite Hr.
  rewrite bind_unfold. unfold copy, deref, alloc.
  rewrite bind_unfold. rewrite Hbg. reflexivity.
Qed.

Lemma debug_image_first (s : Node) seg_list :
  debug_img_bg s = None ->
  debug_image seg_list s = debug_image seg_list (with_background s background).
Proof.
  intros Hr.
  rewrite (debug_image_cached (with_background s background) seg_list
             (length (arrays s)) background);
    [|reflexivity|apply lookup_at_end].
  unfold debug_image.
  rewrite bind_unfold. unfold gets at 1. cbv beta iota. rewrite Hr.
  rewrite bind_unfold, generate_background_spec.
  rewrite bind_unfold. unfold gets at 1. cbv beta iota.
  unfold with_background at 1. unfold set_debug_img_bg at 1. cbv beta iota.
  cbn [debug_img_bg].
  rewrite bind_unfold. unfold copy, deref, alloc.
  rewrite bind_unfold.
  change (arrays (with_background s background)) with (arrays s ++ [background]).
  rewrite lookup_at_end. reflexivity.
Qed.

Lemma cached_background_Some (s : Node) bg :
  cached_background s = Some bg <->
  exists r, debug_img_bg s = Some r /\ arrays s !! r = Some bg.
Proof.
  unfold cached_background. destruct (debug_img_bg s) as [r|]; simpl.
  - split; [intros Hl; exists r; auto|intros (r' & [= <-] & Hl); exact Hl].
  - split; [discriminate|intros (r' & [=] & _)].
Qed.

Lemma debug_image_keeps_cache (s : Node) seg_list bg :
  cached_background s = Some bg ->
  cached_background (snd (debug_image seg_list s)) = Some bg /\
  debug_img_bg (snd (debug_image seg_list s)) = debug_img_bg s /\
  forall image, fst (debug_image seg_list s) = Ok image ->
    image = length (arrays s) /\ debug_img_bg s <> Some image /\
    is_Some (arrays (snd (debug_image seg_list s)) !! image).
Proof.
  intros Hc. apply cached_background_Some in Hc as (r & Hr & Hbg).
  rewrite (debug_image_cached s seg_list r bg Hr Hbg).
  rewrite then_ret_snd.
  set (s1 := set_arrays (arrays s ++ [bg]) s).
  destruct (plot_loop_apart (length (arrays s)) (segments seg_list) s1)
    as (Hb & Hl & Ha).
  pose proof (lookup_lt_Some _ _ _ Hbg) as Hlt.
  split; [|split].
  - apply cached_background_Some. exists r. split.
    + rewrite Hb. exact Hr.
    + rewrite Ha by lia. simpl. rewrite lookup_app_l by exact Hlt. exact Hbg.
  - rewrite Hb. reflexivity.
  - intros image Hi. apply then_ret_fst in Hi. subst image. split; [reflexivity|].
    split.
    + rewrite Hr. intros [= ->]. lia.
    + apply lookup_lt_is_Some. rewrite Hl. simpl. rewrite length_app. simpl. lia.
Qed.


Lemma published_store (s : Node) m : store (published s m) = store s.
Proof. unfold published. destruct (first_processing_done s); reflexivity. Qed.

Lemma published_outputs (s : Node) m :
  pub_lineseglist (published s m) = pub_lineseglist s ++ [m] /\
  pub_debug_img (published s m) = pub_debug_img s.
Proof. unfold published. destruct (first_processing_done s); split; reflexivity. Qed.

Lemma lineseglist_cb_steps (s : Node) n msg out :
  camera_info_received s = true ->
  mapM (project_segment (camera s) (ground_projector s)) (segments msg) = Ok out ->
  let seglist_out := {| header := header msg; segments := out |} in
  lineseglist_cb n msg s =
  (if (0 <? n)%nat then
     image ← debug_image seglist_out;
     pixels ← deref image;
     modify (publish_debug_img
               {| ci_header := Some (header seglist_out);
                  ci_data := cv2_to_compressed_imgmsg pixels |})
   else mret tt) (published s seglist_out).
Proof.
  intros E Hm. unfold lineseglist_cb. rewrite bind_unfold. unfold gets at 1.
  rewrite E. rewrite bind_unfold, project_segments_spec, Hm. simpl app.
  rewrite bind_unfold. unfold modify at 1. cbv beta iota.
  rewrite bind_unfold. unfold gets at 1. cbv beta iota.
  unfold published.
  change (first_processing_done (publish_lineseglist _ s))
    with (first_processing_done s).
  destruct (first_processing_done s); reflexivity.
Qed.

Lemma cached_background_store (s s' : Node) :
  store s' = store s -> cached_background s' = cached_background s.
Proof. unfold store, cached_background. intros [= -> ->]. reflexivity. Qed.

Lemma lineseglist_cb_keeps_cache (s : Node) n msg bg :
  cached_background s = Some bg ->
  cached_background (snd (lineseglist_cb n msg s)) = Some bg /\
  debug_img_bg (snd (lineseglist_cb n msg s)) = debug_img_bg s.
Proof.
  intros Hc. destruct (camera_info_received s) eqn:E.
  - destruct (mapM (project_segment (camera s) (ground_projector s)) (segments msg))
      as [out|e] eqn:Hm.
    + rewrite (lineseglist_cb_steps s n msg out E Hm).
      set (m := {| header := header msg; segments := out |}).
      pose proof (published_store s m) as Hst.
      assert (Hc1 : cached_background (published s m) = Some bg).
      { rewrite (cached_background_store _ _ Hst). exact Hc. }
      assert (Hb1 : debug_img_bg (published s m) = debug_img_bg s).
      { unfold store in Hst. congruence. }
      destruct (0 <? n)%nat; [|simpl; auto].
      destruct (debug_image_keeps_cache (published s m) m bg Hc1) as (Hc2 & Hb2 & _).
      rewrite bind_unfold.
      destruct (debug_image m (published s m)) as [[image|e] s2]; simpl in *;
        [|split; congruence].
      rewrite bind_unfold. unfold deref.
      destruct (arrays s2 !! image); simpl; [|split; congruence].
      split; [|congruence].
      rewrite <- Hc2. apply cached_background_store. reflexivity.
    + rewrite (lineseglist_cb_raises s n msg e E Hm). simpl. auto.
  - rewrite (lineseglist_cb_not_ready s n msg E). simpl. auto.
Qed.

Lemma cb_camera_info_keeps_store msg : preserves (keeps store) (cb_camera_info msg).
Proof. unfold cb_camera_info. frame_node. Qed.

Lemma spin_keeps_cache evs (s : Node) bg :
  cached_background s = Some bg ->
  cached_background (spin evs s) = Some bg /\
  debug_img_bg (spin evs s) = debug_img_bg s.
Proof.
  revert s. induction evs as [|ev evs IH]; intros s Hc; [auto|].
  rewrite spin_cons.
  assert (Hstep : cached_background (snd (dispatch ev s)) = Some bg /\
                  debug_img_bg (snd (dispatch ev s)) = debug_img_bg s).
  { destruct ev as [msg|n msg]; simpl.
    - pose proof (cb_camera_info_keeps_store msg s) as Hst. unfold keeps in Hst.
      rewrite (cached_background_store _ _ Hst). unfold store in Hst.
      split; congruence.
    - apply lineseglist_cb_keeps_cache. exact Hc. }
  destruct Hstep as [Hc' Hb']. destruct (IH _ Hc') as [Hc'' Hb''].
  split; congruence.
Qed.

Lemma display_color_fallback (c : Z) :
  c <> WHITE -> c <> RED -> c <> YELLOW -> display_color c = (0, 0, 0).
Proof.
  intros Hw Hr Hy. unfold display_color, color_map.
  rewrite !lookup_insert_ne by congruence. reflexivity.
Qed.

Lemma plot_segment_draws image (segment : Segment) pt1 pt2 (s : Node) :
  out_of_scope segment = false ->
  ground_to_pixel (fst (points segment)) = Ok pt1 ->
  ground_to_pixel (snd (points segment)) = Ok pt2 ->
  plot_segment image segment s =
  (Ok tt,
   set_arrays
     (alter (fun im => cv2_line im pt1 pt2 (display_color (color segment)) 1)
            image (arrays s)) s).
Proof.
  intros Hs H1 H2. unfold plot_segment. rewrite Hs. cbn [negb].
  rewrite bind_unfold. unfold lift at 1. rewrite H1.
  rewrite bind_unfold. unfold lift at 1. rewrite H2. reflexivity.
Qed.

(** C10. Once the background is cached, nothing redraws it: every call of
    [debug_image] returns a new array, which is not the cached one, and no
    sequence of camera infos and segment lists changes the cached reference
    or the pixels behind it. The first call draws the background once and
    caches it. A colour tag outside the map is plotted in black. *)
Theorem cached_background_is_kept (s : Node) (bg : Image) :
  cached_background s = Some bg ->
  (forall seg_list,
     let r := debug_image seg_list s in
     cached_background (snd r) = Some bg /\
     debug_img_bg (snd r) = debug_img_bg s /\
     forall image, fst r = Ok image ->
       image = length (arrays s) /\ debug_img_bg s <> Some image /\
       is_Some (arrays (snd r) !! image)) /\
  (forall evs,
     cached_background (spin evs s) = Some bg /\
     debug_img_bg (spin evs s) = debug_img_bg s) /\
  (forall (s0 : Node) seg_list,
     debug_img_bg s0 = None ->
     cached_background (snd (debug_image seg_list s0)) = Some background) /\
  (forall c, c <> WHITE -> c <> RED -> c <> YELLOW ->
     display_color c = (0, 0, 0)) /\
  (forall image segment pt1 pt2 (s1 : Node),
     color segment <> WHITE -> color segment <> RED -> color segment <> YELLOW ->
     out_of_scope segment = false ->
     ground_to_pixel (fst (points segment)) = Ok pt1 ->
     ground_to_pixel (snd (points segment)) = Ok pt2 ->
     plot_segment image segment s1 =
     (Ok tt,
      set_arrays
        (alter (fun im => cv2_line im pt1 pt2 (0, 0, 0) 1) image (arrays s1)) s1)).
Proof.
  intros Hc. split; [|split; [|split; [|split]]].
  - intros seg_list. apply debug_image_keeps_cache. exact Hc.
  - intros evs. apply spin_keeps_cache. exact Hc.
  - intros s0 seg_list H0. rewrite (debug_image_first s0 seg_list H0).
    apply debug_image_keeps_cache. apply cached_background_Some.
    exists (length (arrays s0)). split; [reflexivity|apply lookup_at_end].
  - apply display_color_fallback.
  - intros image segment pt1 pt2 s1 Hw Hr Hy Hs H1 H2.
    rewrite (plot_segment_draws image segment pt1 pt2 s1 Hs H1 H2).
    rewrite (display_color_fallback _ Hw Hr Hy). reflexivity.
Qed.


Lemma out_of_scope_coordinates (segment : Segment) :
  out_of_scope segment = true <->
  exists c, c ∈ coordinates segment /\ PrimFloat.ltb 0.5 (PrimFloat.abs c) = true.
Proof.
  unfold out_of_scope, coordinates. destruct (points segment) as [p0 p1].
  rewrite existsb_exists. simpl fst. simpl snd.
  split; intros (c & Hin & Hc); exists c; (split; [|exact Hc]);
    apply list_elem_of_In; exact Hin.
Qed.

Lemma debug_image_filter (s : Node) bg seg_list :
  cached_background s = Some bg ->
  debug_image seg_list s =
  debug_image
    {| header := header seg_list;
       segments := List.filter (fun seg => negb (out_of_scope seg))
                               (segments seg_list) |} s.
Proof.
  intros Hc. apply cached_background_Some in Hc as (r & Hr & Hbg).
  rewrite !(debug_image_cached s _ r bg Hr Hbg). rewrite !bind_unfold.
  cbn [segments].
  rewrite <- (for_each_filter (fun seg => negb (out_of_scope seg)));
    [reflexivity|].
  intros seg s1 Hs. apply plot_segment_skips. exact Hs.
Qed.

Lemma debug_image_all_skipped (s : Node) bg seg_list :
  cached_background s = Some bg ->
  (forall seg, seg ∈ segments seg_list -> out_of_scope seg = true) ->
  debug_image seg_list s =
  (Ok (length (arrays s)), set_arrays (arrays s ++ [bg]) s).
Proof.
  intros Hc Hall. rewrite (debug_image_filter s bg seg_list Hc).
  apply cached_background_Some in Hc as (r & Hr & Hbg).
  rewrite (debug_image_cached s _ r bg Hr Hbg). cbn [segments].
  rewrite filter_none; [reflexivity|].
  intros seg Hin. rewrite (Hall seg Hin). reflexivity.
Qed.

(** C9. A segment with a coordinate beyond 0.5 in absolute value is not
    plotted: the debug image of a list is that of the list without such
    segments, and when every segment is out of scope the returned image is a
    new array with the pixels of the cached background. The published
    segment list still holds those segments, and the published debug image
    is the encoded background. *)
Theorem out_of_scope_segments_are_skipped (s : Node) (bg : Image) :
  cached_background s = Some bg ->
  (forall segment,
     out_of_scope segment = true <->
     exists c, c ∈ coordinates segment /\
               PrimFloat.ltb 0.5 (PrimFloat.abs c) = true) /\
  (forall image segment (s1 : Node),
     out_of_scope segment = true -> plot_segment image segment s1 = (Ok tt, s1)) /\
  (forall seg_list,
     debug_image seg_list s =
     debug_image
       {| header := header seg_list;
          segments := List.filter (fun seg => negb (out_of_scope seg))
                                  (segments seg_list) |} s) /\
  (forall seg_list,
     (forall seg, seg ∈ segments seg_list -> out_of_scope seg = true) ->
     debug_image seg_list s =
     (Ok (length (arrays s)), set_arrays (arrays s ++ [bg]) s)) /\
  (forall n msg out,
     camera_info_received s = true ->
     mapM (project_segment (camera s) (ground_projector s)) (segments msg) = Ok out ->
     (forall seg, seg ∈ out -> out_of_scope seg = true) ->
     (0 < n)%nat ->
     let s' := snd (lineseglist_cb n msg s) in
     pub_lineseglist s' =
       pub_lineseglist s ++ [{| header := header msg; segments := out |}] /\
     pub_debug_img s' =
       pub_debug_img s ++
       [{| ci_header := Some (header msg);
           ci_data := cv2_to_compressed_imgmsg bg |}]).
Proof.
  intros Hc. split; [|split; [|split; [|split]]].
  - apply out_of_scope_coordinates.
  - intros image segment s1 Hs. apply plot_segment_skips. rewrite Hs. reflexivity.
  - intros seg_list. apply (debug_image_filter s bg seg_list Hc).
  - intros seg_list. apply (debug_image_all_skipped s bg seg_list Hc).
  - intros n msg out E Hm Hall Hn s'.
    split; [exact (lineseglist_cb_publishes s n msg out E Hm)|].
    subst s'. rewrite (lineseglist_cb_steps s n msg out E Hm).
    apply Nat.ltb_lt in Hn. rewrite Hn.
    set (m := {| header := header msg; segments := out |}).
    assert (Hc1 : cached_background (published s m) = Some bg).
    { rewrite (cached_background_store _ _ (published_store s m)). exact Hc. }
    rewrite bind_unfold.
    rewrite (debug_image_all_skipped (published s m) bg m Hc1 Hall).
    rewrite bind_unfold. unfold deref. cbn [arrays set_arrays].
    rewrite lookup_at_end. unfold modify. cbn [snd pub_debug_img publish_debug_img set_arrays].
    destruct (published_outputs s m) as [_ ->]. reflexivity.
Qed.


(** The product is truncated toward zero, so the pixel of a point is not
    always the nearest one: 7.25 cm is 29 pixels, and lands on the 28th. *)
Example pixel_is_truncated :
  ground_to_pixel {| msg_x := 0.0725; msg_y := -0.001; msg_z := 0 |}
  = Ok (200, 300 - 28).
Proof. vm_compute. reflexivity. Qed.

(** *** The calibration loader *)

Lemma isfile_lookup (fs : gmap string string) path :
  isfile fs path = match fs !! path with Some _ => true | None => false end.
Proof. unfold isfile. destruct (fs !! path); reflexivity. Qed.

Ltac run_loader rew :=
  unfold load_extrinsics, mbind, M_bind, try_except, log, signal_shutdown,
    modify, lift, raise, mret, M_ret, open_read, result_bind;
  repeat (progress (cbv beta iota zeta; rewrite ?isfile_lookup; rew; cbn [negb])).

Lemma load_extrinsics_default fs namespace (s : Node) text data h :
  fs !! robot_file namespace = None ->
  fs !! default_file = Some text ->
  yaml_load text = Ok data ->
  data !! "homography" = Some h ->
  load_extrinsics fs namespace s =
  (Ok h, add_log warn (missing_text namespace) s).
Proof.
  unfold robot_file, default_file, missing_text. intros Hr Hd Hy Hh.
  run_loader ltac:(rewrite ?Hr, ?Hd, ?Hy, ?Hh). reflexivity.
Qed.

Lemma load_extrinsics_nothing fs namespace (s : Node) :
  fs !! robot_file namespace = None ->
  fs !! default_file = None ->
  load_extrinsics fs namespace s =
  (Raise FileNotFoundError,
   request_shutdown "Found no calibration file ... aborting"
     (add_log error "Found no calibration file ... aborting"
        (add_log warn (missing_text namespace) s))).
Proof.
  unfold robot_file, default_file, missing_text. intros Hr Hd.
  run_loader ltac:(rewrite ?Hr, ?Hd). reflexivity.
Qed.

Lemma load_extrinsics_robot_unparsable fs namespace (s : Node) text :
  fs !! robot_file namespace = Some text ->
  yaml_load text = Raise YAMLError ->
  load_extrinsics fs namespace s =
  (Raise UnboundLocalError,
   request_shutdown (unparsable_text (robot_file namespace))
     (add_log error (unparsable_text (robot_file namespace)) s)).
Proof.
  unfold robot_file, unparsable_text. intros Hr Hy.
  run_loader ltac:(rewrite ?Hr, ?Hy). reflexivity.
Qed.

Lemma load_extrinsics_default_unparsable fs namespace (s : Node) text :
  fs !! robot_file namespace = None ->
  fs !! default_file = Some text ->
  yaml_load text = Raise YAMLError ->
  load_extrinsics fs namespace s =
  (Raise UnboundLocalError,
   request_shutdown (unparsable_text default_file)
     (add_log error (unparsable_text default_file)
        (add_log warn (missing_text namespace) s))).
Proof.
  unfold robot_file, default_file, unparsable_text, missing_text. intros Hr Hd Hy.
  run_loader ltac:(rewrite ?Hr, ?Hd, ?Hy). reflexivity.
Qed.

Lemma init_raises fs namespace e :
  fst (load_extrinsics fs namespace blank) = Raise e ->
  __init__ fs namespace blank = (Raise e, snd (load_extrinsics fs namespace blank)).
Proof.
  intros Hl. unfold __init__.
  rewrite bind_unfold. unfold modify at 1. cbv beta iota.
  rewrite bind_unfold. unfold modify at 1. cbv beta iota.
  change (set_camera None (set_ground_projector None blank)) with blank.
  rewrite bind_unfold.
  destruct (load_extrinsics fs namespace blank) as [[h|e'] s']; simpl in Hl;
    [discriminate|].
  injection Hl as ->. reflexivity.
Qed.

(** C4. The loader has one recoverable case and two fatal ones. Without
    the robot's file but with the default file, parsable and holding a
    homography, it logs one warning and returns that homography, with no
    shutdown request. With neither file, or with a chosen file that yaml
    cannot parse, it logs an error, requests the shutdown of the process and
    raises, so that [__init__] raises too and no homography is returned. *)
Theorem calibration_failure_modes (fs : gmap string string)
    (namespace : string) (s : Node) :
  (forall text data h,
     fs !! robot_file namespace = None ->
     fs !! default_file = Some text ->
     yaml_load text = Ok data ->
     data !! "homography" = Some h ->
     let r := load_extrinsics fs namespace s in
     fst r = Ok h /\
     logs (snd r) = logs s ++ [(warn, missing_text namespace)] /\
     shutdown (snd r) = shutdown s) /\
  (fs !! robot_file namespace = None ->
   fs !! default_file = None ->
   let r := load_extrinsics fs namespace s in
   fst r = Raise FileNotFoundError /\
   logs (snd r) =
     logs s ++ [(warn, missing_text namespace);
                (error, "Found no calibration file ... aborting")] /\
   is_Some (shutdown (snd r))) /\
  (forall text,
     fs !! robot_file namespace = Some text ->
     yaml_load text = Raise YAMLError ->
     let r := load_extrinsics fs namespace s in
     fst r = Raise UnboundLocalError /\
     logs (snd r) =
       logs s ++ [(error, unparsable_text (robot_file namespace))] /\
     is_Some (shutdown (snd r))) /\
  (forall text,
     fs !! robot_file namespace = None ->
     fs !! default_file = Some text ->
     yaml_load text = Raise YAMLError ->
     let r := load_extrinsics fs namespace s in
     fst r = Raise UnboundLocalError /\
     logs (snd r) =
       logs s ++ [(warn, missing_text namespace);
                  (error, unparsable_text default_file)] /\
     is_Some (shutdown (snd r))) /\
  (forall e,
     fst (load_extrinsics fs namespace blank) = Raise e ->
     fst (__init__ fs namespace blank) = Raise e).
Proof.
  assert (Hsome : forall (o : option string) msg,
    is_Some (match o with Some r => Some r | None => Some msg end)).
  { intros [r|] msg; eexists; reflexivity. }
  split; [|split; [|split; [|split]]].
  - intros text data h Hr Hd Hy Hh r. subst r.
    rewrite (load_extrinsics_default fs namespace s text data h Hr Hd Hy Hh).
    repeat split.
  - intros Hr Hd r. subst r. rewrite (load_extrinsics_nothing fs namespace s Hr Hd).
    split; [reflexivity|]. split.
    + simpl. rewrite <- app_assoc. reflexivity.
    + apply Hsome.
  - intros text Hr Hy r. subst r.
    rewrite (load_extrinsics_robot_unparsable fs namespace s text Hr Hy).
    split; [reflexivity|]. split; [reflexivity|apply Hsome].
  - intros text Hr Hd Hy r. subst r.
    rewrite (load_extrinsics_default_unparsable fs namespace s text Hr Hd Hy).
    split; [reflexivity|]. split.
    + simpl. rewrite <- app_assoc. reflexivity.
    + apply Hsome.
  - intros e He. rewrite (init_raises fs namespace e He). reflexivity.
Qed.

(** *** What the claims leave out: camera infos *)

Lemma reshape_wrong_length xs r c :
  length xs <> (r * c)%nat -> reshape xs r c = Raise ValueError.
Proof.
  intros Hl. unfold reshape. apply Nat.eqb_neq in Hl. rewrite Hl. reflexivity.
Qed.

(** X1. A camera info whose K has not 9 entries, or whose P has not 12, is
    refused on a node that is not ready: the callback raises ValueError and
    the node is as before, still not ready. *)
Theorem malformed_camera_info_is_rejected (s : Node) (msg : CameraInfo) :
  camera_info_received s = false ->
  length (K msg) <> 9%nat \/ length (P msg) <> 12%nat ->
  cb_camera_info msg s = (Raise ValueError, s).
Proof.
  intros E Hbad. unfold cb_camera_info, mbind, M_bind, gets, lift.
  rewrite E. cbn [negb].
  destruct (Nat.eq_dec (length (K msg)) 9%nat) as [HK|HK].
  - destruct Hbad as [Hbad|Hbad]; [contradiction|].
    unfold reshape at 1. rewrite HK. cbn [Nat.mul Nat.add Nat.eqb].
    rewrite (reshape_wrong_length (P msg) 3 4 Hbad). reflexivity.
  - rewrite (reshape_wrong_length (K msg) 3 3 HK). reflexivity.
Qed.

Lemma cb_camera_info_raises (s : Node) (msg : CameraInfo) (e : exn) :
  camera_info_received s = false ->
  fst (cb_camera_info msg s) = Raise e ->
  let s' := snd (cb_camera_info msg s) in
  camera_info_received s' = false /\
  ground_projector s' = ground_projector s /\
  homography s' = homography s /\
  outputs s' = outputs s /\
  (s' = s \/
   exists cam, s' = set_camera (Some cam) s /\ GroundProjector_new cam = Raise e).
Proof.
  intros E. unfold cb_camera_info, mbind, M_bind, gets, lift, modify.
  rewrite E. cbn [negb].
  destruct (reshape (K msg) 3 3) as [k|e1]; [|cbn; intros _; repeat split; auto].
  destruct (reshape (P msg) 3 4) as [p|e1]; [|cbn; intros _; repeat split; auto].
  destruct (CameraModel_new _ _ _ _ _ _) as [cam|e1];
    [|cbn; intros _; repeat split; auto].
  cbn [camera set_camera].
  destruct (GroundProjector_new cam) as [gp|e1] eqn:Hg; [discriminate|].
  cbn. intros [= ->]. repeat split; try exact E.
  right. exists cam. split; [reflexivity|exact Hg].
Qed.

(** X2. A camera info whose handling raises leaves the node not ready, with
    the ground projector, the homography and the outputs as they were. The
    camera model is as it was too, unless it was built and the projector's
    constructor raised: then the new camera model stays assigned. *)
Theorem failed_camera_info_leaves_not_ready (s : Node) (msg : CameraInfo)
    (e : exn) :
  camera_info_received s = false ->
  fst (cb_camera_info msg s) = Raise e ->
  let s' := snd (cb_camera_info msg s) in
  camera_info_received s' = false /\
  ground_projector s' = ground_projector s /\
  homography s' = homography s /\
  outputs s' = outputs s /\
  (s' = s \/
   exists cam, s' = set_camera (Some cam) s /\ GroundProjector_new cam = Raise e).
Proof. apply cb_camera_info_raises. Qed.

Lemma calibrated_transfer (s s' : Node) :
  calibration s' = calibration s -> homography s' = homography s ->
  calibrated s -> calibrated s'.
Proof.
  unfold calibration, calibrated. intros [= Hf Hc Hg] Hh Hs.
  rewrite Hf, Hc, Hg, Hh. exact Hs.
Qed.

Lemma cb_camera_info_keeps_homography msg :
  preserves (keeps homography) (cb_camera_info msg).
Proof. unfold cb_camera_info. frame_node. Qed.

Lemma lineseglist_cb_keeps_homography n msg :
  preserves (keeps homography) (lineseglist_cb n msg).
Proof. unfold lineseglist_cb. frame_node. Qed.

Lemma dispatch_calibrated ev (s : Node) :
  calibrated s ->
  calibrated (snd (dispatch ev s)) /\
  homography (snd (dispatch ev s)) = homography s.
Proof.
  intros Hs. destruct ev as [msg|n msg]; cbn [dispatch].
  - split; [|apply cb_camera_info_keeps_homography].
    destruct (camera_info_received s) eqn:E.
    + rewrite (cb_camera_info_ready s msg E). exact Hs.
    + destruct (cb_camera_info msg s) as [[[]|e] s'] eqn:Ecb.
      * destruct (cb_camera_info_first s s' msg E Ecb)
          as (k & p & cam & gp & _ & _ & Hc & Hg & ->).
        intros _. exists cam, gp. cbn. repeat split; try assumption.
        eexists _, _, _, _, _. exact Hc.
      * pose proof (cb_camera_info_raises s msg e E) as Hf.
        rewrite Ecb in Hf. destruct (Hf eq_refl) as (Hn & _).
        cbn [snd] in *. intros Hr. rewrite Hn in Hr. discriminate.
  - split; [|apply lineseglist_cb_keeps_homography].
    apply (calibrated_transfer s); [|apply lineseglist_cb_keeps_homography|exact Hs].
    apply lineseglist_cb_keeps_calibration.
Qed.

Lemma spin_calibrated evs (s : Node) :
  calibrated s ->
  calibrated (spin evs s) /\ homography (spin evs s) = homography s.
Proof.
  revert s. induction evs as [|ev evs IH]; intros s Hs; [auto|].
  rewrite spin_cons. destruct (dispatch_calibrated ev s Hs) as [Hc Hh].
  destruct (IH _ Hc) as [Hc' Hh']. split; [exact Hc'|congruence].
Qed.

(** X3. Whatever the node receives after [__init__], in whatever order and
    with whatever failures, a ready node has a camera model and a ground
    projector, the projector built from that camera model and the camera
    model from the homography that [__init__] loaded, which no callback
    changes. *)
Theorem ready_node_is_calibrated (fs : gmap string string)
    (namespace : string) (s0 : Node) (evs : list event) :
  __init__ fs namespace blank = (Ok tt, s0) ->
  homography (spin evs s0) = homography s0 /\
  (camera_info_received (spin evs s0) = true ->
   exists cam gp,
     camera (spin evs s0) = Some cam /\
     ground_projector (spin evs s0) = Some gp /\
     GroundProjector_new cam = Ok gp /\
     exists w h k d p, CameraModel_new w h k d p (homography s0) = Ok cam).
Proof.
  intros Hinit. destruct (init_not_ready _ _ _ Hinit) as (Hn & _).
  assert (H0 : calibrated s0).
  { intros Hr. rewrite Hn in Hr. discriminate. }
  destruct (spin_calibrated evs s0 H0) as [Hc Hh].
  split; [exact Hh|]. intros Hr.
  destruct (Hc Hr) as (cam & gp & H1 & H2 & H3 & w & h & k & d & p & H4).
  exists cam, gp. repeat split; try assumption.
  exists w, h, k, d, p. rewrite <- Hh. exact H4.
Qed.

(** *** What the claims leave out: segment lists and the debug image *)

Lemma debug_part_keeps {V} (view : Node -> V) n (m : SegmentList) :
  (forall v s, view (set_arrays v s) = view s) ->
  (forall v s, view (set_debug_img_bg v s) = view s) ->
  (forall v s, view (publish_debug_img v s) = view s) ->
  preserves (keeps view)
    (if (0 <? n)%nat then
       image ← debug_image m;
       pixels ← deref image;
       modify (publish_debug_img
                 {| ci_header := Some (header m);
                    ci_data := cv2_to_compressed_imgmsg pixels |})
     else mret tt).
Proof.
  intros Ha Hb Hp. destruct (0 <? n)%nat; [|apply preserves_ret; apply _].
  apply preserves_bind; [apply _ | apply debug_image_keeps; assumption | intros image].
  apply preserves_bind; [apply _ | apply deref_keeps | intros pixels].
  intros s. apply Hp.
Qed.

Lemma lineseglist_cb_primary (s : Node) n msg :
  primary (snd (lineseglist_cb n msg s)) = primary (handled s msg).
Proof.
  unfold handled. destruct (camera_info_received s) eqn:E.
  - destruct (mapM _ (segments msg)) as [out|e] eqn:Hm.
    + rewrite (lineseglist_cb_steps s n msg out E Hm).
      apply (debug_part_keeps primary n {| header := header msg; segments := out |});
        intros; reflexivity.
    + rewrite (lineseglist_cb_raises s n msg e E Hm). reflexivity.
  - rewrite (lineseglist_cb_not_ready s n msg E). reflexivity.
Qed.

Lemma lineseglist_cb_no_subscriber (s : Node) msg :
  store (snd (lineseglist_cb 0 msg s)) = store s /\
  pub_debug_img (snd (lineseglist_cb 0 msg s)) = pub_debug_img s.
Proof.
  destruct (camera_info_received s) eqn:E.
  - destruct (mapM (project_segment (camera s) (ground_projector s)) (segments msg))
      as [out|e] eqn:Hm.
    + rewrite (lineseglist_cb_steps s 0 msg out E Hm). cbn.
      split; [apply published_store|apply published_outputs].
    + rewrite (lineseglist_cb_raises s 0 msg e E Hm). auto.
  - rewrite (lineseglist_cb_not_ready s 0 msg E). auto.
Qed.

(** X4. Whether anyone subscribes to the debug image changes nothing of
    the primary output: the published segment lists, the log, the flags, the
    calibration and the shutdown request are the same for any two numbers of
    connections. Without a subscriber no image is drawn, cached or
    published. *)
Theorem debug_subscribers_do_not_change_output (s : Node) (n n' : nat)
    (msg : SegmentList) :
  primary (snd (lineseglist_cb n msg s))
    = primary (snd (lineseglist_cb n' msg s)) /\
  store (snd (lineseglist_cb 0 msg s)) = store s /\
  pub_debug_img (snd (lineseglist_cb 0 msg s)) = pub_debug_img s.
Proof.
  split; [|apply lineseglist_cb_no_subscriber].
  rewrite !lineseglist_cb_primary. reflexivity.
Qed.

Lemma lineseglist_cb_outputs (s : Node) (n : nat) (msg : SegmentList) :
  let s' := snd (lineseglist_cb n msg s) in
  (pub_lineseglist s' = pub_lineseglist s /\ pub_debug_img s' = pub_debug_img s) \/
  exists out,
    pub_lineseglist s' =
      pub_lineseglist s ++ [{| header := header msg; segments := out |}] /\
    length out = length (segments msg) /\
    (pub_debug_img s' = pub_debug_img s \/
     exists data,
       pub_debug_img s' =
         pub_debug_img s ++ [{| ci_header := Some (header msg); ci_data := data |}]).
Proof.
  intros s'. subst s'. destruct (camera_info_received s) eqn:E.
  - destruct (mapM (project_segment (camera s) (ground_projector s)) (segments msg))
      as [out|e] eqn:Hm.
    + right. exists out.
      split; [exact (lineseglist_cb_publishes s n msg out E Hm)|].
      split.
      { apply mapM_ok_Forall2 in Hm. symmetry. exact (Forall2_length _ _ _ Hm). }
      rewrite (lineseglist_cb_steps s n msg out E Hm).
      set (m := {| header := header msg; segments := out |}).
      destruct (published_outputs s m) as [_ Hd].
      destruct (0 <? n)%nat; [|left; exact Hd].
      pose proof (debug_image_keeps pub_debug_img m
                    (fun _ _ => eq_refl) (fun _ _ => eq_refl) (published s m)) as Hk.
      unfold keeps in Hk. rewrite bind_unfold.
      destruct (debug_image m (published s m)) as [[image|e] s2];
        cbn [snd] in Hk; [|left; cbn; congruence].
      rewrite bind_unfold. unfold deref.
      destruct (arrays s2 !! image) as [pixels|]; [|left; cbn; congruence].
      right. exists (cv2_to_compressed_imgmsg pixels). cbn.
      rewrite Hk, Hd. reflexivity.
    + rewrite (lineseglist_cb_raises s n msg e E Hm). auto.
  - rewrite (lineseglist_cb_not_ready s n msg E). auto.
Qed.

(** X5. One received segment list gives at most one published segment
    list and at most one debug image, both with the header of the received
    list; a published list has as many segments as the received one, and a
    debug image is published only after its segment list. *)
Theorem one_output_per_batch (s : Node) (n : nat) (msg : SegmentList) :
  let s' := snd (lineseglist_cb n msg s) in
  (pub_lineseglist s' = pub_lineseglist s /\ pub_debug_img s' = pub_debug_img s) \/
  exists out,
    pub_lineseglist s' =
      pub_lineseglist s ++ [{| header := header msg; segments := out |}] /\
    length out = length (segments msg) /\
    (pub_debug_img s' = pub_debug_img s \/
     exists data,
       pub_debug_img s' =
         pub_debug_img s ++ [{| ci_header := Some (header msg); ci_data := data |}]).
Proof. apply lineseglist_cb_outputs. Qed.

Lemma cb_camera_info_keeps_outputs msg :
  preserves (keeps outputs) (cb_camera_info msg).
Proof. unfold cb_camera_info. frame_node. Qed.

(** X16. Over any sequence of camera infos and segment lists, nothing that
    was published is withdrawn; the new segment lists are no more than the
    segment lists received, and the new debug images no more than the new
    segment lists. *)
Theorem outputs_only_grow (s : Node) (evs : list event) :
  exists lists images,
    pub_lineseglist (spin evs s) = pub_lineseglist s ++ lists /\
    pub_debug_img (spin evs s) = pub_debug_img s ++ images /\
    (length images <= length lists)%nat /\
    (length lists <= length (List.filter is_lineseglist_in evs))%nat.
Proof.
  revert s. induction evs as [|ev evs IH]; intros s.
  - exists [], []. cbn. rewrite !app_nil_r. auto.
  - rewrite spin_cons.
    destruct (IH (snd (dispatch ev s))) as (lists & images & Hl & Hi & Hle & Hn).
    destruct ev as [msg|n msg]; cbn [dispatch List.filter is_lineseglist_in] in *.
    + pose proof (cb_camera_info_keeps_outputs msg s) as Hk.
      unfold keeps, outputs in Hk. injection Hk as Hk1 Hk2.
      rewrite Hk1 in Hl. rewrite Hk2 in Hi. exists lists, images. auto.
    + destruct (lineseglist_cb_outputs s n msg)
        as [[H1 H2]|(out & H1 & _ & [H2|[data H2]])];
        rewrite H1 in Hl; rewrite H2 in Hi.
      * exists lists, images. cbn. repeat split; try assumption. lia.
      * rewrite <- app_assoc in Hl. eexists (_ :: lists), images.
        cbn. repeat split; try eassumption; lia.
      * rewrite <- app_assoc in Hl, Hi. eexists (_ :: lists), (_ :: images).
        cbn. repeat split; try eassumption; lia.
Qed.

Lemma first_lines_add_log lvl msg (s : Node) :
  is_first_line (lvl, msg) = false ->
  first_lines (add_log lvl msg s) = first_lines s.
Proof.
  intros Hl. unfold first_lines. cbn [logs add_log].
  rewrite List.filter_app. cbn [List.filter]. rewrite Hl. apply app_nil_r.
Qed.

Lemma init_fresh fs namespace (s0 : Node) :
  __init__ fs namespace blank = (Ok tt, s0) ->
  first_processing_done s0 = false /\ first_lines s0 = [] /\
  debug_img_bg s0 = None /\ arrays s0 = [].
Proof.
  intros Hinit.
  assert (Hlog : forall lvl msg, lvl <> info ->
            preserves (keeps first_lines) (log lvl msg)).
  { intros lvl msg Hl s. apply first_lines_add_log. destruct lvl; [congruence|..]; reflexivity. }
  assert (Hk : preserves (keeps (fun s => (first_lines s, arrays s)))
                 (__init__ fs namespace)).
  { assert (Hlog' : forall lvl msg, lvl <> info ->
              preserves (keeps (fun s => (first_lines s, arrays s))) (log lvl msg)).
    { intros lvl msg Hl s. unfold keeps. f_equal. apply (Hlog lvl msg Hl s). }
    unfold __init__, load_extrinsics.
    repeat lazymatch goal with
      | |- preserves _ (log warn _) => apply Hlog'; discriminate
      | |- preserves _ (log error _) => apply Hlog'; discriminate
      | |- preserves _ (signal_shutdown _) => unfold signal_shutdown
      | |- _ => frame_step
      end. }
  specialize (Hk blank). rewrite Hinit in Hk. unfold keeps in Hk.
  cbn in Hk. injection Hk as Hf Ha.
  revert Hinit. unfold __init__. unfold mbind at 1 2 3 4 5 6 7, M_bind. unfold modify.
  destruct (load_extrinsics fs namespace _) as [[h|e] s']; [|discriminate].
  unfold lift. destruct (reshape h 3 3) as [h33|e]; [|discriminate].
  intros [= <-]. repeat split; assumption.
Qed.

(** The first published list and its log line go together. *)
Lemma first_line_step ev (s : Node) :
  length (first_lines s) = (if first_processing_done s then 1 else 0)%nat ->
  (first_processing_done s = true <-> pub_lineseglist s <> []) ->
  let s' := snd (dispatch ev s) in
  length (first_lines s') = (if first_processing_done s' then 1 else 0)%nat /\
  (first_processing_done s' = true <-> pub_lineseglist s' <> []).
Proof.
  intros Hn Hp s'. subst s'.
  assert (Hview : forall t : Node,
    (first_lines t, first_processing_done t, pub_lineseglist t)
      = (first_lines s, first_processing_done s, pub_lineseglist s) ->
    length (first_lines t) = (if first_processing_done t then 1 else 0)%nat /\
    (first_processing_done t = true <-> pub_lineseglist t <> [])).
  { intros t [= -> -> ->]. auto. }
  destruct ev as [msg|n msg]; cbn [dispatch].
  - apply Hview.
    assert (Hk : preserves (keeps (fun t => (first_lines t, first_processing_done t,
                                             pub_lineseglist t)))
                   (cb_camera_info msg)).
    { unfold cb_camera_info. frame_node. }
    apply Hk.
  - pose proof (lineseglist_cb_primary s n msg) as Hprim.
    unfold primary in Hprim. injection Hprim as Hpub Hlogs Hdone _ _ _.
    unfold first_lines. rewrite Hpub, Hlogs, Hdone. fold (first_lines (handled s msg)).
    unfold handled. destruct (camera_info_received s).
    + destruct (mapM _ (segments msg)) as [out|e]; [|auto].
      unfold published. destruct (first_processing_done s) eqn:Ed.
      * cbn. rewrite Ed. split; [exact Hn|]. split; [intros _|reflexivity].
        intros Habs. apply app_eq_nil in Habs as [_ Habs]. discriminate.
      * unfold first_lines. cbn. rewrite List.filter_app. cbn. rewrite length_app.
        unfold first_lines in Hn. rewrite Hn. split; [reflexivity|].
        split; [intros _|reflexivity].
        intros Habs. apply app_eq_nil in Habs as [_ Habs]. discriminate.
    + rewrite first_lines_add_log by reflexivity. cbn. auto.
Qed.

(** X6. From [__init__] on, the line "First projected segments published."
    is logged at most once, and it has been logged exactly when a segment
    list has been published. *)
Theorem first_publication_is_logged_once (fs : gmap string string)
    (namespace : string) (s0 : Node) (evs : list event) :
  __init__ fs namespace blank = (Ok tt, s0) ->
  let s := spin evs s0 in
  length (first_lines s) = (if first_processing_done s then 1 else 0)%nat /\
  (first_processing_done s = true <-> pub_lineseglist s <> []).
Proof.
  intros Hinit. cbn zeta.
  destruct (init_fresh _ _ _ Hinit) as (Hd & Hf & _).
  destruct (init_not_ready _ _ _ Hinit) as (_ & Hp & _).
  assert (H0 : length (first_lines s0) = (if first_processing_done s0 then 1 else 0)%nat /\
               (first_processing_done s0 = true <-> pub_lineseglist s0 <> [])).
  { rewrite Hd, Hf, Hp. split; [reflexivity|]. split; [discriminate|congruence]. }
  clear Hinit Hd Hf Hp. revert s0 H0.
  induction evs as [|ev evs IH]; intros s0 [Hn Hp]; [auto|].
  rewrite spin_cons. apply IH. apply first_line_step; assumption.
Qed.

Lemma plot_segment_stroke (l : list Image) im (seg : Segment) (s : Node) :
  plot_segment (length l) seg (set_arrays (l ++ [im]) s) =
  match stroke seg with
  | Ok f => (Ok tt, set_arrays (l ++ [f im]) s)
  | Raise e => (Raise e, set_arrays (l ++ [im]) s)
  end.
Proof.
  unfold plot_segment, stroke. destruct (negb (out_of_scope seg)); [|reflexivity].
  unfold mbind at 1, M_bind, lift.
  destruct (ground_to_pixel (fst (points seg))) as [pt1|e]; [|reflexivity].
  cbn [mbind result_bind]. unfold mbind at 1, M_bind.
  destruct (ground_to_pixel (snd (points seg))) as [pt2|e]; [|reflexivity].
  cbn [mbind result_bind mret result_ret]. unfold draw, modify.
  cbn [arrays set_arrays]. rewrite alter_at_end. reflexivity.
Qed.

Lemma plot_loop_render segs (l : list Image) im (s : Node) :
  exists im',
    for_each segs (plot_segment (length l)) (set_arrays (l ++ [im]) s) =
    (match render im segs with Ok _ => Ok tt | Raise e => Raise e end,
     set_arrays (l ++ [im']) s) /\
    (forall done, render im segs = Ok done -> im' = done).
Proof.
  revert im. induction segs as [|seg segs IH]; intros im.
  - exists im. split; [reflexivity|]. cbn. intros done [= <-]. reflexivity.
  - cbn [for_each render]. rewrite bind_unfold, plot_segment_stroke.
    destruct (stroke seg) as [f|e]; cbn [mbind result_bind].
    + destruct (IH (f im)) as (im' & Hrun & Hdone). exists im'. auto.
    + exists im. split; [reflexivity|]. intros done [=].
Qed.

Lemma backdrop_cached (s : Node) r bg :
  debug_img_bg s = Some r -> arrays s !! r = Some bg -> backdrop s = bg.
Proof.
  intros Hr Hbg. unfold backdrop, cached_background. rewrite Hr. cbn.
  rewrite Hbg. reflexivity.
Qed.

Lemma debug_image_render_cached (s : Node) seg_list r bg :
  debug_img_bg s = Some r -> arrays s !! r = Some bg ->
  match render bg (segments seg_list) with
  | Ok im =>
      debug_image seg_list s =
      (Ok (length (arrays s)), set_arrays (arrays s ++ [im]) s)
  | Raise e => fst (debug_image seg_list s) = Raise e
  end.
Proof.
  intros Hr Hbg. rewrite (debug_image_cached s seg_list r bg Hr Hbg).
  rewrite bind_unfold.
  destruct (plot_loop_render (segments seg_list) (arrays s) bg s)
    as (im' & Hrun & Hdone).
  rewrite Hrun. destruct (render bg (segments seg_list)) as [im|e]; [|reflexivity].
  rewrite (Hdone im eq_refl). reflexivity.
Qed.

Lemma debug_image_is_the_render_aux (s : Node) (seg_list : SegmentList) :
  store_ok s ->
  match render (backdrop s) (segments seg_list) with
  | Ok im =>
      exists image, fst (debug_image seg_list s) = Ok image /\
                    arrays (snd (debug_image seg_list s)) !! image = Some im
  | Raise e => fst (debug_image seg_list s) = Raise e
  end.
Proof.
  intros Hok.
  assert (Hcached : forall (t : Node) q bg,
    debug_img_bg t = Some q -> arrays t !! q = Some bg ->
    match render bg (segments seg_list) with
    | Ok im => exists image, fst (debug_image seg_list t) = Ok image /\
                             arrays (snd (debug_image seg_list t)) !! image = Some im
    | Raise e => fst (debug_image seg_list t) = Raise e
    end).
  { intros t q bg Hq Hbg.
    pose proof (debug_image_render_cached t seg_list q bg Hq Hbg) as Hrun.
    destruct (render bg (segments seg_list)) as [im|e]; [|exact Hrun].
    rewrite Hrun. exists (length (arrays t)). split; [reflexivity|].
    apply lookup_at_end. }
  destruct (debug_img_bg s) as [q|] eqn:Hq.
  - destruct (Hok q Hq) as [bg Hbg].
    rewrite (backdrop_cached s q bg Hq Hbg). exact (Hcached s q bg Hq Hbg).
  - unfold backdrop. rewrite Hq. rewrite (debug_image_first s seg_list Hq).
    apply (Hcached (with_background s background) (length (arrays s)));
      [reflexivity|apply lookup_at_end].
Qed.

Lemma debug_image_backdrop_kept (s : Node) (seg_list : SegmentList) :
  store_ok s ->
  cached_background (snd (debug_image seg_list s)) = Some (backdrop s).
Proof.
  intros Hok. destruct (debug_img_bg s) as [q|] eqn:Hq.
  - destruct (Hok q Hq) as [bg Hbg]. rewrite (backdrop_cached s q bg Hq Hbg).
    apply debug_image_keeps_cache. apply cached_background_Some. eauto.
  - unfold backdrop. rewrite Hq. rewrite (debug_image_first s seg_list Hq).
    apply debug_image_keeps_cache. apply cached_background_Some.
    exists (length (arrays s)). split; [reflexivity|apply lookup_at_end].
Qed.

(** X7. The debug image is the background with the segments of the list
    plotted in order, each segment in scope as one line between the pixels
    of its two points in the colour of its tag. If a pixel cannot be
    computed, the call raises that exception. Either way the cached
    background afterwards is the one the segments were plotted over. *)
Theorem debug_image_is_the_render (s : Node) (seg_list : SegmentList) :
  store_ok s ->
  let r := debug_image seg_list s in
  match render (backdrop s) (segments seg_list) with
  | Ok im => exists image, fst r = Ok image /\ arrays (snd r) !! image = Some im
  | Raise e => fst r = Raise e
  end /\
  cached_background (snd r) = Some (backdrop s).
Proof.
  intros Hok r. subst r. split.
  - apply debug_image_is_the_render_aux. exact Hok.
  - apply debug_image_backdrop_kept. exact Hok.
Qed.

Lemma published_backdrop (s : Node) m :
  store_ok (published s m) <-> store_ok s.
Proof.
  pose proof (published_store s m) as Hst. unfold store in Hst.
  injection Hst as Hb Ha. unfold store_ok. rewrite Hb, Ha. reflexivity.
Qed.

(** X8. With a subscriber, on a ready node whose segments all project: the
    segment list is published first; then, if every pixel can be computed,
    one debug image is published, the encoded render of the published list
    with the header of the received one; if not, the callback raises after
    the list is out and no debug image is published. *)
Theorem debug_output_of_a_batch (s : Node) (n : nat) (msg : SegmentList)
    (out : list Segment) :
  camera_info_received s = true ->
  mapM (project_segment (camera s) (ground_projector s)) (segments msg) = Ok out ->
  (0 < n)%nat ->
  store_ok s ->
  let r := lineseglist_cb n msg s in
  pub_lineseglist (snd r) =
    pub_lineseglist s ++ [{| header := header msg; segments := out |}] /\
  match render (backdrop s) out with
  | Ok im =>
      fst r = Ok tt /\
      pub_debug_img (snd r) =
        pub_debug_img s ++
        [{| ci_header := Some (header msg);
            ci_data := cv2_to_compressed_imgmsg im |}]
  | Raise e => fst r = Raise e /\ pub_debug_img (snd r) = pub_debug_img s
  end.
Proof.
  intros E Hm Hn Hok r. subst r.
  split; [exact (lineseglist_cb_publishes s n msg out E Hm)|].
  rewrite (lineseglist_cb_steps s n msg out E Hm).
  apply Nat.ltb_lt in Hn. rewrite Hn.
  set (m := {| header := header msg; segments := out |}).
  pose proof (proj2 (published_backdrop s m) Hok) as Hok1.
  assert (Hb : backdrop (published s m) = backdrop s).
  { pose proof (published_store s m) as Hst. unfold store in Hst.
    injection Hst as Hb Ha. unfold backdrop, cached_background. rewrite Hb, Ha.
    reflexivity. }
  destruct (published_outputs s m) as [_ Hd].
  pose proof (debug_image_keeps pub_debug_img m
                (fun _ _ => eq_refl) (fun _ _ => eq_refl) (published s m)) as Hk.
  unfold keeps in Hk.
  pose proof (debug_image_is_the_render_aux (published s m) m Hok1) as Hrun.
  rewrite Hb in Hrun. change (segments m) with out in Hrun.
  rewrite bind_unfold.
  destruct (render (backdrop s) out) as [im|e].
  - destruct Hrun as (image & Hi & Him).
    destruct (debug_image m (published s m)) as [res s2]. cbn [fst snd] in *.
    subst res. rewrite bind_unfold. unfold deref. rewrite Him. cbn.
    rewrite Hk, Hd. auto.
  - destruct (debug_image m (published s m)) as [res s2]. cbn [fst snd] in *.
    subst res. cbn. rewrite Hk, Hd. auto.
Qed.

(** *** What the claims leave out: the loader and the constructor *)

(** X9. The robot's own calibration file, when it is there and parses,
    decides alone: its homography is returned and nothing is logged,
    whatever else the disk holds, the default file included. *)
Theorem robot_file_takes_precedence (fs : gmap string string)
    (namespace : string) (s : Node) (text : string)
    (data : gmap string (list float)) (h : list float) :
  fs !! robot_file namespace = Some text ->
  yaml_load text = Ok data ->
  data !! "homography" = Some h ->
  load_extrinsics fs namespace s = (Ok h, s).
Proof.
  unfold robot_file. intros Hr Hy Hh.
  run_loader ltac:(rewrite ?Hr, ?Hy, ?Hh). reflexivity.
Qed.

(** X10. A calibration file that parses but has no "homography" entry makes
    the loader raise KeyError. Unlike the other failures, no error is logged
    and no shutdown is requested: what was logged is at most the warning of
    the fallback. *)
Theorem missing_homography_key (fs : gmap string string)
    (namespace : string) (s : Node) (text : string)
    (data : gmap string (list float)) :
  yaml_load text = Ok data ->
  data !! "homography" = None ->
  (fs !! robot_file namespace = Some text ->
   load_extrinsics fs namespace s = (Raise KeyError, s)) /\
  (fs !! robot_file namespace = None ->
   fs !! default_file = Some text ->
   load_extrinsics fs namespace s =
   (Raise KeyError, add_log warn (missing_text namespace) s)).
Proof.
  intros Hy Hh. split.
  - unfold robot_file. intros Hr.
    run_loader ltac:(rewrite ?Hr, ?Hy, ?Hh). reflexivity.
  - unfold robot_file, default_file, missing_text. intros Hr Hd.
    run_loader ltac:(rewrite ?Hr, ?Hd, ?Hy, ?Hh). reflexivity.
Qed.

Lemma rows_of_spec (r c : nat) (xs : list float) :
  length xs = (r * c)%nat ->
  concat (rows_of r c xs) = xs /\
  length (rows_of r c xs) = r /\
  Forall (fun row => length row = c) (rows_of r c xs).
Proof.
  revert xs. induction r as [|r IH]; intros xs Hl; cbn [rows_of].
  - destruct xs; [|discriminate]. repeat split. constructor.
  - destruct (IH (drop c xs)) as (Hc & Hn & Hf).
    { rewrite length_drop, Hl. cbn. lia. }
    cbn [concat length]. rewrite Hc, Hn, take_drop.
    repeat split. constructor; [|exact Hf].
    rewrite length_take, Hl. cbn. lia.
Qed.

(** X11. [__init__] builds the node exactly when the loader returns a
    homography of 9 numbers: the node then keeps them as 3 rows of 3, in
    order, with no camera model, no projector and not ready. A loaded
    homography of any other length makes [__init__] raise ValueError. *)
Theorem init_needs_nine_numbers (fs : gmap string string)
    (namespace : string) (h : list float) :
  fst (load_extrinsics fs namespace blank) = Ok h ->
  (length h = 9%nat ->
   exists s0,
     __init__ fs namespace blank = (Ok tt, s0) /\
     concat (homography s0) = h /\
     length (homography s0) = 3%nat /\
     Forall (fun row => length row = 3%nat) (homography s0) /\
     camera s0 = None /\ ground_projector s0 = None /\
     camera_info_received s0 = false) /\
  (length h <> 9%nat -> fst (__init__ fs namespace blank) = Raise ValueError).
Proof.
  intros Hl.
  assert (Hrun : __init__ fs namespace blank =
    match reshape h 3 3 with
    | Ok h33 =>
        (Ok tt,
         set_debug_img_bg None
           (set_camera_info_received false
              (set_first_processing_done false
                 (set_homography h33 (snd (load_extrinsics fs namespace blank))))))
    | Raise e => (Raise e, snd (load_extrinsics fs namespace blank))
    end).
  { unfold __init__.
    rewrite bind_unfold. unfold modify at 1. cbv beta iota.
    rewrite bind_unfold. unfold modify at 1. cbv beta iota.
    change (set_camera None (set_ground_projector None blank)) with blank.
    rewrite bind_unfold.
    destruct (load_extrinsics fs namespace blank) as [[h'|e] s']; cbn in Hl;
      [|discriminate].
    injection Hl as ->. rewrite bind_unfold. unfold lift at 1.
    destruct (reshape h 3 3); reflexivity. }
  assert (Hcal : preserves (keeps (fun s => (camera s, ground_projector s)))
                   (load_extrinsics fs namespace)).
  { unfold load_extrinsics. frame_node. }
  specialize (Hcal blank). unfold keeps in Hcal. cbn in Hcal.
  injection Hcal as Hcam Hgp.
  split.
  - intros H9. rewrite Hrun. unfold reshape. rewrite H9. cbn [Nat.eqb Nat.mul Nat.add].
    eexists. split; [reflexivity|]. cbn.
    destruct (rows_of_spec 3 3 h H9) as (Hc & Hn & Hf). auto 10.
  - intros H9. rewrite Hrun, (reshape_wrong_length h 3 3 H9). reflexivity.
Qed.

End GroundProjectionFacts.

(** ** The anti-instagram node *)

Section AntiInstagramFacts.
Import AntiInstagram.
Context {library : Library}.

Lemma decode_image_msg_ok (s : Node) m img :
  image_msg s = Some m -> compressed_imgmsg_to_cv2 m = Ok img ->
  decode_image_msg s = (Ok img, s).
Proof.
  intros Hm Hd. unfold decode_image_msg, try_except, mbind, M_bind, gets, lift.
  rewrite Hm, Hd. reflexivity.
Qed.

(** C5. When the stored payload does not decode, the failure is logged and
    then [decode_image_msg] raises, because its local [image] was never
    bound; the exception goes through [calculate_new_parameters], which
    neither updates the estimator nor publishes. *)
Theorem decode_failure_escapes (s : Node) (m : CompressedImage) :
  image_msg s = Some m ->
  compressed_imgmsg_to_cv2 m = Raise ValueError ->
  let logged :=
    add_log ("Anti_instagram cannot decode image: " ++ str_exn ValueError)%string s in
  decode_image_msg s = (Raise UnboundLocalError, logged) /\
  calculate_new_parameters s = (Raise UnboundLocalError, logged) /\
  ai logged = ai s /\ pub logged = pub s.
Proof.
  intros Hm Hd logged.
  assert (Hdec : decode_image_msg s = (Raise UnboundLocalError, logged)).
  { unfold decode_image_msg, try_except, mbind, M_bind, gets, lift, log, modify.
    rewrite Hm, Hd. reflexivity. }
  split; [exact Hdec|]. split; [|split; reflexivity].
  unfold calculate_new_parameters. rewrite bind_unfold. unfold gets at 1.
  rewrite Hm. rewrite bind_unfold, Hdec. reflexivity.
Qed.

(** *** What the claim leaves out *)

Lemma spin_cons_ai ev evs (s : Node) :
  spin (ev :: evs) s = spin evs (snd (dispatch ev s)).
Proof. reflexivity. Qed.

Lemma spin_app_ai evs evs' (s : Node) :
  spin (evs ++ evs') s = spin evs' (spin evs s).
Proof. unfold spin. apply fold_left_app. Qed.

Lemma tick_without_image (s : Node) :
  image_msg s = None ->
  calculate_new_parameters s = (Ok tt, add_log "Waiting for first image!" s).
Proof.
  intros Hm. unfold calculate_new_parameters. rewrite bind_unfold.
  unfold gets at 1. rewrite Hm. reflexivity.
Qed.

(** X12. Until an image has been stored, timer ticks publish nothing and
    leave the estimator alone: each tick returns after logging one line. *)
Theorem no_thresholds_before_first_image (s : Node) (evs : list event) :
  image_msg s = None ->
  forallb is_timer evs = true ->
  let s' := spin evs s in
  pub s' = pub s /\ ai s' = ai s /\ image_msg s' = None /\
  logs s' = logs s ++ repeat "Waiting for first image!"%string (length evs) /\
  Forall (fun ev => forall s1 : Node, image_msg s1 = None ->
                    fst (dispatch ev s1) = Ok tt) evs.
Proof.
  intros Hm Hevs. cbn zeta.
  assert (Hspin : pub (spin evs s) = pub s /\ ai (spin evs s) = ai s /\
    image_msg (spin evs s) = None /\
    logs (spin evs s) =
      logs s ++ repeat "Waiting for first image!"%string (length evs)).
  { revert s Hm. induction evs as [|ev evs IH]; intros s Hm.
    - cbn. rewrite app_nil_r. auto.
    - cbn in Hevs. apply andb_true_iff in Hevs as [Hev Hevs].
      destruct ev as [m|]; [discriminate|].
      rewrite spin_cons_ai. cbn [dispatch]. rewrite (tick_without_image s Hm).
      cbn [snd].
      destruct (IH Hevs (add_log "Waiting for first image!" s) Hm)
        as (H1 & H2 & H3 & H4).
      rewrite H1, H2, H3, H4. cbn. rewrite <- app_assoc. auto. }
  destruct Hspin as (H1 & H2 & H3 & H4). repeat (split; [assumption|]).
  clear - Hevs. induction evs as [|ev evs IH]; [constructor|].
  cbn in Hevs. apply andb_true_iff in Hevs as [Hev Hevs].
  constructor; [|apply IH; exact Hevs].
  destruct ev as [m|]; [discriminate|].
  intros s1 E1. cbn [dispatch]. rewrite (tick_without_image s1 E1). reflexivity.
Qed.

Lemma tick_with_image (s : Node) m img a' :
  image_msg s = Some m ->
  compressed_imgmsg_to_cv2 m = Ok img ->
  update img (ai s) = (Ok tt, a') ->
  calculate_new_parameters s =
  (Ok tt,
   {| ai := a'; image_msg := Some m;
      pub := pub s ++ [{| low := lower_threshold a'; high := higher_threshold a' |}];
      logs := logs s |}).
Proof.
  intros Hm Hd Hu. unfold calculate_new_parameters. rewrite bind_unfold.
  unfold gets at 1. rewrite Hm. cbv beta iota.
  rewrite (bind_ok _ _ _ _ _ (decode_image_msg_ok s m img Hm Hd)).
  rewrite bind_unfold. unfold on_ai. rewrite Hu. cbv beta iota.
  unfold mbind, M_bind, gets, publish, modify. cbn. rewrite Hm. reflexivity.
Qed.

Lemma spin_stores_keep ms (s : Node) :
  ai (spin (map image_in ms) s) = ai s /\
  pub (spin (map image_in ms) s) = pub s /\
  logs (spin (map image_in ms) s) = logs s.
Proof.
  revert s. induction ms as [|m ms IH]; intros s; [auto|].
  cbn [map]. rewrite spin_cons_ai.
  destruct (IH (snd (dispatch (image_in m) s))) as (H1 & H2 & H3).
  rewrite H1, H2, H3. auto.
Qed.

Lemma spin_stores ms m (s : Node) :
  spin (map image_in (ms ++ [m])) s =
  {| ai := ai s; image_msg := Some m; pub := pub s; logs := logs s |}.
Proof.
  rewrite map_app, spin_app_ai. cbn.
  destruct (spin_stores_keep ms s) as (H1 & H2 & H3).
  rewrite H1, H2, H3. reflexivity.
Qed.

(** X13. The stored image is a single slot: after any images have arrived,
    a tick decodes the last one only, updates the estimator with it and
    publishes one message with the estimator's two thresholds; the image
    stays stored. *)
Theorem tick_uses_the_latest_image (s : Node) (ms : list CompressedImage)
    (m : CompressedImage) (img : Image) (a' : Estimator) :
  compressed_imgmsg_to_cv2 m = Ok img ->
  update img (ai s) = (Ok tt, a') ->
  spin (map image_in (ms ++ [m]) ++ [timer]) s =
  {| ai := a'; image_msg := Some m;
     pub := pub s ++ [{| low := lower_threshold a'; high := higher_threshold a' |}];
     logs := logs s |}.
Proof.
  intros Hd Hu. rewrite spin_app_ai, spin_stores.
  cbn [spin fold_left dispatch].
  rewrite (tick_with_image
             {| ai := ai s; image_msg := Some m; pub := pub s; logs := logs s |}
             m img a' eq_refl Hd Hu).
  reflexivity.
Qed.

Ltac run_tick :=
  cbv beta iota delta
    [calculate_new_parameters decode_image_msg try_except on_ai publish log
     mbind M_bind gets lift raise mret M_ret modify].

(** What a tick does, by the stored image, the decoder and the estimator. *)
Lemma tick_cases (s : Node) :
  match image_msg s with
  | None => calculate_new_parameters s = (Ok tt, add_log "Waiting for first image!" s)
  | Some m =>
      match compressed_imgmsg_to_cv2 m with
      | Ok img =>
          exists r a',
            update img (ai s) = (r, a') /\
            fst (calculate_new_parameters s) = r /\
            image_msg (snd (calculate_new_parameters s)) = Some m /\
            pub (snd (calculate_new_parameters s)) =
              match r with
              | Ok _ => pub s ++ [{| low := lower_threshold a';
                                     high := higher_threshold a' |}]
              | Raise _ => pub s
              end
      | Raise e =>
          calculate_new_parameters s =
          if is_ValueError e
          then (Raise UnboundLocalError,
                add_log ("Anti_instagram cannot decode image: " ++ str_exn e)%string s)
          else (Raise e, s)
      end
  end.
Proof.
  destruct (image_msg s) as [m|] eqn:Hm; [|exact (tick_without_image s Hm)].
  destruct (compressed_imgmsg_to_cv2 m) as [img|e] eqn:Hd.
  - destruct (update img (ai s)) as [r a'] eqn:Hu. exists r, a'.
    split; [reflexivity|]. run_tick.
    repeat (progress (cbv beta iota; rewrite ?Hm, ?Hd, ?Hu)).
    destruct r as [[]|e]; cbn; rewrite ?Hm; auto.
  - run_tick. repeat (progress (cbv beta iota; rewrite ?Hm, ?Hd)).
    destruct (is_ValueError e); reflexivity.
Qed.

(** X14. A tick that raises publishes nothing and keeps the stored
    image. *)
Theorem failed_tick_publishes_nothing (s : Node) (e : exn) :
  fst (calculate_new_parameters s) = Raise e ->
  pub (snd (calculate_new_parameters s)) = pub s /\
  image_msg (snd (calculate_new_parameters s)) = image_msg s.
Proof.
  intros Hf. pose proof (tick_cases s) as Hc.
  destruct (image_msg s) as [m|] eqn:Hm.
  - destruct (compressed_imgmsg_to_cv2 m) as [img|e1] eqn:Hd.
    + destruct Hc as (r & a' & Hu & Hr & Hi & Hp).
      rewrite Hf in Hr. subst r. rewrite Hp, Hi. auto.
    + rewrite Hc in *. destruct (is_ValueError e1); cbn in *; auto.
  - rewrite Hc in Hf. discriminate.
Qed.

(** X17. Only ValueError is caught around the decoder: any other exception
    it raises leaves [calculate_new_parameters] as it is, with nothing
    logged and the node as before. *)
Theorem other_decoder_errors_pass_through (s : Node) (m : CompressedImage)
    (e : exn) :
  image_msg s = Some m ->
  compressed_imgmsg_to_cv2 m = Raise e ->
  is_ValueError e = false ->
  decode_image_msg s = (Raise e, s) /\
  calculate_new_parameters s = (Raise e, s).
Proof.
  intros Hm Hd Hv. split.
  - run_tick. repeat (progress (cbv beta iota; rewrite ?Hm, ?Hd, ?Hv)). reflexivity.
  - pose proof (tick_cases s) as Hc. rewrite Hm, Hd, Hv in Hc. exact Hc.
Qed.

Lemma tick_grows_by_one (s : Node) :
  pub (snd (calculate_new_parameters s)) = pub s \/
  exists m, pub (snd (calculate_new_parameters s)) = pub s ++ [m].
Proof.
  pose proof (tick_cases s) as Hc.
  destruct (image_msg s) as [m|]; [|rewrite Hc; auto].
  destruct (compressed_imgmsg_to_cv2 m) as [img|e1].
  - destruct Hc as (r & a' & _ & _ & _ & Hp). rewrite Hp.
    destruct r; [right; eexists; reflexivity|auto].
  - rewrite Hc. destruct (is_ValueError e1); auto.
Qed.

(** X15. Published thresholds are never withdrawn, and there is at most
    one message per timer tick: after any events, what was published before
    is a prefix of what is published now, and the rest is no longer than
    the number of ticks. *)
Theorem at_most_one_message_per_tick (s : Node) (evs : list event) :
  exists new,
    pub (spin evs s) = pub s ++ new /\
    (length new <= length (List.filter is_timer evs))%nat.
Proof.
  revert s. induction evs as [|ev evs IH]; intros s.
  - exists []. cbn. rewrite app_nil_r. auto.
  - rewrite spin_cons_ai. destruct (IH (snd (dispatch ev s))) as (new & Hp & Hl).
    destruct ev as [m|]; cbn [dispatch List.filter is_timer] in *.
    + exists new. split; [exact Hp|exact Hl].
    + destruct (tick_grows_by_one s) as [Hs|[m Hs]]; rewrite Hs in Hp.
      * exists new. split; [exact Hp|]. cbn. lia.
      * exists (m :: new). rewrite <- app_assoc in Hp. split; [exact Hp|].
        cbn. lia.
Qed.

End AntiInstagramFacts.

(** ** The statements on the sample instance *)

Section GroundProjectionRuns.
Import GroundProjection Sample.

Lemma started_not_ready : camera_info_received started = false.
Proof. vm_compute. reflexivity. Qed.

Lemma ready_is_ready : camera_info_received ready = true.
Proof. vm_compute. reflexivity. Qed.

Lemma ready_dividing : camera_info_received SampleDividing.ready = true.
Proof. vm_compute. reflexivity. Qed.

(** C1, as the specification states it, fails: of five received segments
    the third has a ray with a zero denominator; with a ground projector
    that divides without a test the callback returns and publishes all five
    segments in the received order, the third with an infinite first point,
    rather than a list of four. *)
Lemma one_unprojectable_of_five_is_published :
  length (segments batch5) = 5%nat /\
  camera_info_received SampleDividing.ready = true /\
  pub_lineseglist SampleDividing.ready = [] /\
  fst SampleDividing.handled5 = Ok tt /\
  map header (pub_lineseglist (snd SampleDividing.handled5)) = [hdr] /\
  map (fun m => length (segments m))
      (pub_lineseglist (snd SampleDividing.handled5)) = [5%nat] /\
  map (fun m => map color (segments m))
      (pub_lineseglist (snd SampleDividing.handled5)) = [[0; 1; 2; 0; 1]] /\
  map (fun m => map finite_segment (segments m))
      (pub_lineseglist (snd SampleDividing.handled5))
    = [[true; true; false; true; true]] /\
  map (fun m => map points (segments m))
      (pub_lineseglist (snd SampleDividing.handled5))
    = [[({| msg_x := 0.25; msg_y := -0.125; msg_z := 0 |},
         {| msg_x := 0.125; msg_y := -0.03125; msg_z := 0 |});
        ({| msg_x := 0.25; msg_y := -0.25; msg_z := 0 |},
         {| msg_x := 0.125; msg_y := -0.25; msg_z := 0 |});
        ({| msg_x := infinity; msg_y := neg_infinity; msg_z := 0 |},
         {| msg_x := 0.25; msg_y := -0.125; msg_z := 0 |});
        ({| msg_x := 0.25; msg_y := 0.25; msg_z := 0 |},
         {| msg_x := 0.125; msg_y := 0.125; msg_z := 0 |});
        ({| msg_x := 0.125; msg_y := 0; msg_z := 0 |},
         {| msg_x := 0.0625; msg_y := 0; msg_z := 0 |})]]%float.
Proof.
  split; [reflexivity|].
  repeat (split; [vm_compute; reflexivity|]).
  vm_compute. reflexivity.
Qed.

Lemma no_segment_is_dropped_witness :
  camera_info_received ready = true /\
  (exists e, lineseglist_cb 0 batch5 ready = (Raise e, ready) /\
     pub_lineseglist (snd (lineseglist_cb 0 batch5 ready)) = pub_lineseglist ready) /\
  camera_info_received SampleDividing.ready = true /\
  (exists out,
     pub_lineseglist (snd SampleDividing.handled5)
       = pub_lineseglist SampleDividing.ready
         ++ [{| header := hdr; segments := out |}] /\
     length out = 5%nat) /\
  (exists out,
     pub_lineseglist (snd (lineseglist_cb 0 batch2 ready))
       = pub_lineseglist ready ++ [{| header := hdr; segments := out |}] /\
     length out = 2%nat).
Proof.
  split; [exact ready_is_ready|]. split; [|split; [exact ready_dividing|split]].
  - destruct (camera ready) as [cam|] eqn:Hc; [|discriminate].
    destruct (ground_projector ready) as [gp|] eqn:Hg; [|discriminate].
    apply (proj1 (proj2 (no_segment_is_dropped ready 0 batch5 ready_is_ready))
             cam gp (seg 2 0.5 0 0.5 4)%float
             [0.5; 0; 0; 0]%float [0; 0; 0.5; 4]%float 0.5%float 0%float
             0.5%float 4%float
             {| pt_x := 0.5; pt_y := 0 |}%float {| pt_x := 0.5; pt_y := 4 |}%float
             {| pt_x := 0.5; pt_y := 0 |}%float {| pt_x := 0.5; pt_y := 4 |}%float);
      try reflexivity; try assumption.
    + right. right. left.
    + vm_compute in Hg. injection Hg as <-. vm_compute. reflexivity.
  - destruct (proj2 (proj2 (no_segment_is_dropped (vision := SampleDividing.dividing)
                SampleDividing.ready 0 batch5 ready_dividing)))
      as (out & Hp & Hl & _).
    + apply Forall_forall. repeat constructor.
    + exists out. split; [exact Hp|exact Hl].
  - destruct (proj2 (proj2 (no_segment_is_dropped ready 0 batch2 ready_is_ready)))
      as (out & Hp & Hl & _).
    + apply Forall_forall. repeat constructor.
    + exists out. split; [exact Hp|exact Hl].
Defined.

Lemma endpoints_of_four_floats_raise_witness :
  length (concat (pixels_normalized four_floats)) = 4%nat /\
  is_ok (endpoints four_floats) = false /\
  endpoints four_floats = Raise IndexError.
Proof.
  split; [reflexivity|]. split.
  - apply (endpoints_of_four_floats_raise four_floats). reflexivity.
  - reflexivity.
Defined.

(** C3, as the specification states it, fails: the first camera info has a
    K of two numbers, its handling raises and builds nothing; the second
    one, not the first, builds the camera model and the ground projector. *)
Lemma second_camera_info_constructs :
  camera_info_received started = false /\
  camera started = None /\
  cb_camera_info short_info started = (Raise ValueError, started) /\
  cb_camera_info info_msg (snd (cb_camera_info short_info started))
    = (Ok tt, ready) /\
  is_Some (camera ready) /\
  is_Some (ground_projector ready) /\
  camera (spin [camera_info short_info; camera_info info_msg] started)
    = camera ready /\
  camera (spin [camera_info short_info; camera_info info_msg] started)
    <> camera (spin [camera_info short_info] started).
Proof.
  split; [exact started_not_ready|].
  repeat (split; [vm_compute; reflexivity|]).
  split; [eexists; vm_compute; reflexivity|].
  split; [eexists; vm_compute; reflexivity|].
  split; [vm_compute; reflexivity|].
  vm_compute. discriminate.
Qed.

Lemma camera_model_latch_witness :
  camera_info_received started = false /\
  camera_info_received
    (spin (map camera_info [short_info; info_msg; short_info]) started) = true /\
  camera (spin (map camera_info [short_info; info_msg; short_info]) started)
    = camera ready /\
  ground_projector
    (spin (map camera_info [short_info; info_msg; short_info]) started)
    = ground_projector ready.
Proof.
  split; [exact started_not_ready|].
  destruct (camera ready) as [cam|] eqn:Hc; [|discriminate].
  destruct (ground_projector ready) as [gp|] eqn:Hg; [|discriminate].
  apply (proj1 (camera_model_latch started [short_info; info_msg; short_info]
                  started_not_ready) cam gp).
  vm_compute in Hc. injection Hc as <-.
  vm_compute in Hg. injection Hg as <-.
  vm_compute. reflexivity.
Defined.

Lemma not_ready_skips_batches_witness :
  camera_info_received started = false /\
  forallb is_lineseglist_in [lineseglist_in 1 batch5; lineseglist_in 0 batch2]
    = true /\
  pub_lineseglist (spin [lineseglist_in 1 batch5; lineseglist_in 0 batch2] started)
    = pub_lineseglist started.
Proof.
  split; [exact started_not_ready|]. split; [reflexivity|].
  apply (not_ready_skips_batches started
           [lineseglist_in 1 batch5; lineseglist_in 0 batch2]
           started_not_ready eq_refl).
Defined.


Lemma drawn_background : cached_background drawn = Some background.
Proof.
  unfold drawn.
  rewrite (debug_image_first ready ground_far) by (vm_compute; reflexivity).
  apply debug_image_keeps_cache. apply cached_background_Some.
  exists (length (arrays ready)). split; [reflexivity|apply lookup_at_end].
Qed.

Lemma out_of_scope_segments_are_skipped_witness :
  cached_background drawn = Some background /\
  Forall (fun seg => out_of_scope seg = true) (segments ground_far) /\
  debug_image ground_far drawn =
    (Ok (length (arrays drawn)), set_arrays (arrays drawn ++ [background]) drawn) /\
  debug_image {| header := hdr; segments := segments ground_far ++ segments ground_far |} drawn
    = debug_image {| header := hdr; segments := [] |} drawn.
Proof.
  split; [exact drawn_background|]. split; [repeat constructor|].
  destruct (out_of_scope_segments_are_skipped drawn background drawn_background)
    as (_ & _ & Hfilter & Hall & _).
  split.
  - apply Hall. apply Forall_forall. repeat constructor.
  - apply Hfilter.
Defined.

Lemma cached_background_is_kept_witness :
  cached_background drawn = Some background /\
  (forall evs, cached_background (spin evs drawn) = Some background) /\
  display_color 7 = (0, 0, 0).
Proof.
  split; [exact drawn_background|].
  destruct (cached_background_is_kept drawn background drawn_background)
    as (_ & Hspin & _ & Hcolor & _).
  split.
  - intros evs. apply (Hspin evs).
  - apply Hcolor; discriminate.
Defined.

Lemma calibration_failure_modes_witness :
  (fst (load_extrinsics disk_default "/duckiebot/" blank) = Ok H_flat /\
   shutdown (snd (load_extrinsics disk_default "/duckiebot/" blank)) = None) /\
  (fst (load_extrinsics ∅ "/duckiebot/" blank) = Raise FileNotFoundError /\
   is_Some (shutdown (snd (load_extrinsics ∅ "/duckiebot/" blank)))) /\
  (fst (load_extrinsics disk_broken "/duckiebot/" blank) = Raise UnboundLocalError /\
   is_Some (shutdown (snd (load_extrinsics disk_broken "/duckiebot/" blank)))) /\
  fst (__init__ ∅ "/duckiebot/" blank) = Raise FileNotFoundError.
Proof.
  split; [|split; [|split]].
  - destruct (proj1 (calibration_failure_modes disk_default "/duckiebot/" blank)
                "homography: [0, 0, 1, -1, 0, 0, 0, 1, 0]"
                (<["homography" := H_flat]> ∅) H_flat)
      as (Hr & _ & Hs); try (vm_compute; reflexivity).
    split; [exact Hr | exact Hs].
  - destruct (proj1 (proj2 (calibration_failure_modes ∅ "/duckiebot/" blank)))
      as (Hr & _ & Hs); try (vm_compute; reflexivity).
    split; [exact Hr | exact Hs].
  - destruct (proj1 (proj2 (proj2
                (calibration_failure_modes disk_broken "/duckiebot/" blank))) "{{")
      as (Hr & _ & Hs); try (vm_compute; reflexivity).
    split; [exact Hr | exact Hs].
  - apply (proj2 (proj2 (proj2 (proj2
             (calibration_failure_modes ∅ "/duckiebot/" blank))))).
    vm_compute. reflexivity.
Defined.

End GroundProjectionRuns.

Section AntiInstagramRuns.
Import AntiInstagram SampleAntiInstagram.

Lemma decode_failure_escapes_witness :
  image_msg stale = Some [] /\
  compressed_imgmsg_to_cv2 ([] : CompressedImage) = Raise ValueError /\
  fst (calculate_new_parameters stale) = Raise UnboundLocalError /\
  pub (snd (calculate_new_parameters stale)) = pub stale /\
  logs (snd (calculate_new_parameters stale))
    = ["Initialized."; "Anti_instagram cannot decode image: ValueError"]%string.
Proof.
  split; [reflexivity|]. split; [reflexivity|].
  destruct (decode_failure_escapes stale [] eq_refl eq_refl) as (_ & Hc & _).
  rewrite Hc. repeat split.
Defined.

End AntiInstagramRuns.

(** ** The further statements on the sample instance *)

Section MoreGroundProjectionRuns.
Import GroundProjection Sample.

Lemma started_by_init : __init__ disk_default "/duckiebot/" blank = (Ok tt, started).
Proof. vm_compute. reflexivity. Qed.

Lemma ready_store_ok : store_ok ready.
Proof. intros r Hr. vm_compute in Hr. discriminate. Qed.

Lemma malformed_camera_info_is_rejected_witness :
  camera_info_received started = false /\
  (length (K short_info) <> 9%nat \/ length (P short_info) <> 12%nat) /\
  cb_camera_info short_info started = (Raise ValueError, started).
Proof.
  split; [exact started_not_ready|].
  assert (Hbad : length (K short_info) <> 9%nat \/ length (P short_info) <> 12%nat)
    by (left; discriminate).
  split; [exact Hbad|].
  exact (malformed_camera_info_is_rejected started short_info started_not_ready Hbad).
Defined.

Lemma failed_camera_info_leaves_not_ready_witness :
  camera_info_received started = false /\
  fst (cb_camera_info short_info started) = Raise ValueError /\
  camera_info_received (snd (cb_camera_info short_info started)) = false.
Proof.
  assert (Hf : fst (cb_camera_info short_info started) = Raise ValueError)
    by (vm_compute; reflexivity).
  split; [exact started_not_ready|]. split; [exact Hf|].
  exact (proj1 (failed_camera_info_leaves_not_ready started short_info ValueError
                  started_not_ready Hf)).
Defined.

Lemma ready_node_is_calibrated_witness :
  __init__ disk_default "/duckiebot/" blank = (Ok tt, started) /\
  homography (spin [camera_info short_info; camera_info info_msg;
                    lineseglist_in 0 batch2] started)
    = homography started.
Proof.
  split; [exact started_by_init|].
  exact (proj1 (ready_node_is_calibrated disk_default "/duckiebot/" started
                  [camera_info short_info; camera_info info_msg;
                   lineseglist_in 0 batch2] started_by_init)).
Defined.

Lemma first_publication_is_logged_once_witness :
  __init__ disk_default "/duckiebot/" blank = (Ok tt, started) /\
  length (first_lines (spin [camera_info info_msg; lineseglist_in 0 batch2;
                             lineseglist_in 0 batch2] started))
    = (if first_processing_done
            (spin [camera_info info_msg; lineseglist_in 0 batch2;
                   lineseglist_in 0 batch2] started)
       then 1 else 0)%nat.
Proof.
  split; [exact started_by_init|].
  exact (proj1 (first_publication_is_logged_once disk_default "/duckiebot/" started
                  [camera_info info_msg; lineseglist_in 0 batch2;
                   lineseglist_in 0 batch2] started_by_init)).
Defined.

Lemma debug_image_is_the_render_witness :
  store_ok ready /\
  is_ok (render (backdrop ready) (segments ground_nan)) = false /\
  cached_background (snd (debug_image ground_nan ready)) = Some (backdrop ready).
Proof.
  split; [exact ready_store_ok|]. split; [reflexivity|].
  exact (proj2 (debug_image_is_the_render ready ground_nan ready_store_ok)).
Defined.

Lemma debug_output_of_a_batch_witness :
  camera_info_received ready = true /\
  (0 < 1)%nat /\
  store_ok ready /\
  exists out,
    mapM (project_segment (camera ready) (ground_projector ready))
         (segments batch2) = Ok out /\
    pub_lineseglist (snd (lineseglist_cb 1 batch2 ready)) =
      pub_lineseglist ready ++ [{| header := header batch2; segments := out |}].
Proof.
  split; [exact ready_is_ready|]. split; [lia|]. split; [exact ready_store_ok|].
  eexists. split; [vm_compute; reflexivity|].
  refine (proj1 (debug_output_of_a_batch ready 1 batch2 _ ready_is_ready _ _
                   ready_store_ok)).
  - vm_compute. reflexivity.
  - lia.
Defined.

Lemma robot_file_takes_precedence_witness :
  disk_robot !! robot_file "/duckiebot/"
    = Some "homography: [0, 0, 1, -1, 0, 0, 0, 1, 0]"%string /\
  load_extrinsics disk_robot "/duckiebot/" blank = (Ok H_flat, blank).
Proof.
  split; [vm_compute; reflexivity|].
  apply (robot_file_takes_precedence disk_robot "/duckiebot/" blank
           "homography: [0, 0, 1, -1, 0, 0, 0, 1, 0]"
           (<["homography" := H_flat]> ∅) H_flat);
    vm_compute; reflexivity.
Defined.

Lemma missing_homography_key_witness :
  yaml_load (Yaml := SampleNoKey.empty_yaml) "homography: []" = Ok ∅ /\
  load_extrinsics (H1 := SampleNoKey.empty_yaml) disk_robot "/duckiebot/" blank
    = (Raise KeyError, blank).
Proof.
  split; [reflexivity|].
  apply (proj1 (missing_homography_key (yaml := SampleNoKey.empty_yaml)
                  disk_robot "/duckiebot/" blank
                  "homography: [0, 0, 1, -1, 0, 0, 0, 1, 0]" ∅ eq_refl eq_refl)).
  vm_compute. reflexivity.
Defined.

Lemma init_needs_nine_numbers_witness :
  fst (load_extrinsics disk_default "/duckiebot/" blank) = Ok H_flat /\
  length H_flat = 9%nat /\
  exists s0, __init__ disk_default "/duckiebot/" blank = (Ok tt, s0) /\
             concat (homography s0) = H_flat.
Proof.
  assert (Hl : fst (load_extrinsics disk_default "/duckiebot/" blank) = Ok H_flat)
    by (vm_compute; reflexivity).
  split; [exact Hl|]. split; [reflexivity|].
  destruct (proj1 (init_needs_nine_numbers disk_default "/duckiebot/" H_flat Hl)
              eq_refl) as (s0 & Hinit & Hc & _).
  exists s0. split; assumption.
Defined.

End MoreGroundProjectionRuns.

Section MoreAntiInstagramRuns.
Import AntiInstagram SampleAntiInstagram.

Lemma no_thresholds_before_first_image_witness :
  image_msg fresh = None /\
  forallb is_timer [timer; timer; timer] = true /\
  pub (spin [timer; timer; timer] fresh) = pub fresh.
Proof.
  split; [reflexivity|]. split; [reflexivity|].
  exact (proj1 (no_thresholds_before_first_image fresh [timer; timer; timer]
                  eq_refl eq_refl)).
Defined.

Lemma tick_uses_the_latest_image_witness :
  compressed_imgmsg_to_cv2 [40; 90] = Ok [40; 90] /\
  update [40; 90] (ai fresh) = (Ok tt, (40, 90)) /\
  pub (spin (map image_in ([[7]; []] ++ [[40; 90]]) ++ [timer]) fresh)
    = [{| low := 40; high := 90 |}].
Proof.
  split; [reflexivity|]. split; [reflexivity|].
  exact (f_equal pub
           (tick_uses_the_latest_image fresh [[7]; []] [40; 90] [40; 90] (40, 90)
              eq_refl eq_refl)).
Defined.

Lemma failed_tick_publishes_nothing_witness :
  fst (calculate_new_parameters stale) = Raise UnboundLocalError /\
  pub (snd (calculate_new_parameters stale)) = pub stale.
Proof.
  split; [reflexivity|].
  exact (proj1 (failed_tick_publishes_nothing stale UnboundLocalError eq_refl)).
Defined.

Lemma other_decoder_errors_pass_through_witness :
  image_msg SampleStrict.held = Some [1; 2] /\
  compressed_imgmsg_to_cv2 (Library := SampleStrict.strict_library) [1; 2]
    = Raise TypeError /\
  calculate_new_parameters SampleStrict.held = (Raise TypeError, SampleStrict.held).
Proof.
  split; [reflexivity|]. split; [reflexivity|].
  exact (proj2 (other_decoder_errors_pass_through
                  (library := SampleStrict.strict_library)
                  SampleStrict.held [1; 2] TypeError eq_refl eq_refl eq_refl)).
Defined.

End MoreAntiInstagramRuns.
